(** * Template validation and confidence aggregation

    A shallow embedding of [modules/metadata_confidence.py]:
    [validate_field_type], [validate_against_template],
    [enhance_confidence_with_template], [calculate_overall_confidence] and
    [format_confidence_results], and of [modules/metadata_extraction.py]:
    [_process_ai_response], [extract_structured_metadata] and
    [extract_freeform_metadata], followed by the properties of these
    functions.

    Conventions of the embedding:
    - a Python [str] is a Rocq [string], one character per code point
      (code points below 256);
    - a Python [float] is a binary64 value of [spec_float] (precision 53,
      [emax] 1024), with the operations of [SpecFloat];
    - a Python [dict] is an association list in insertion order; a store
      [d[k] = v] replaces the binding of [k] in place or appends a new one;
    - a raised exception is the [Raise] case of the result type [Exc];
    - the interpreter's [float(str)], [repr(float)] and [re.match] are not
      implemented here; they are the variables of Section [Core]. *)

From Stdlib Require Import ZArith List String Ascii Bool Lia DecimalString.
From Stdlib Require Import Sorting.Permutation.
From Stdlib Require Import Floats.SpecFloat.
Import ListNotations.

Open Scope string_scope.
Open Scope Z_scope.

(** ** Exceptions *)

Inductive exn : Type :=
| ValueError (msg : string)
| TypeError (msg : string)
| OverflowError (msg : string)
| OtherError (name msg : string).

Inductive Exc (A : Type) : Type :=
| Ok (a : A)
| Raise (e : exn).

Arguments Ok {A} a.
Arguments Raise {A} e.

Definition bind {A B : Type} (m : Exc A) (k : A -> Exc B) : Exc B :=
  match m with
  | Ok a => k a
  | Raise e => Raise e
  end.

Notation "x <- m ;; k" := (bind m (fun x => k))
  (at level 61, m at next level, right associativity).

(** [str(e)] of an exception. *)
Definition exn_str (e : exn) : string :=
  match e with
  | ValueError m | TypeError m | OverflowError m | OtherError _ m => m
  end.

(** ** Values *)

Definition pyfloat : Type := spec_float.

Definition prec : Z := 53.
Definition emax : Z := 1024.

Inductive pyval : Type :=
| PNone
| PBool (b : bool)
| PInt (z : Z)
| PFloat (f : pyfloat)
| PStr (s : string)
| POther (tyname str_form : string) (truth : bool).
  (* any other object ([list], [dict], ...): its type's name, its [str]
     and its truth value; [float] refuses it and it is ordered against
     no number *)

(** [type(value).__name__] *)
Definition type_name (v : pyval) : string :=
  match v with
  | PNone => "NoneType"
  | PBool _ => "bool"
  | PInt _ => "int"
  | PFloat _ => "float"
  | PStr _ => "str"
  | POther tyname _ _ => tyname
  end.

(** [isinstance(value, str)] *)
Definition is_str (v : pyval) : bool :=
  match v with PStr _ => true | _ => false end.

(** [value is None] *)
Definition is_none (v : pyval) : bool :=
  match v with PNone => true | _ => false end.

(** [value == ''] *)
Definition eq_empty_str (v : pyval) : bool :=
  match v with PStr "" => true | _ => false end.

Definition SF_is_zero (f : pyfloat) : bool :=
  match f with S754_zero _ => true | _ => false end.

(** Truth value of an object, as [if], [and] and [not] take it. *)
Definition truthy (v : pyval) : bool :=
  match v with
  | PNone => false
  | PBool b => b
  | PInt z => negb (z =? 0)
  | PFloat f => negb (SF_is_zero f)
  | PStr s => negb (s =? "")%string
  | POther _ _ truth => truth
  end.

(** ** Strings *)

(** [str.lower] on one character: A-Z, and the upper-case letters of
    Latin-1. *)
Definition lower_char (c : ascii) : ascii :=
  let n := nat_of_ascii c in
  if ((65 <=? n) && (n <=? 90))%nat then ascii_of_nat (n + 32)
  else if ((192 <=? n) && (n <=? 222) && negb (n =? 215))%nat
       then ascii_of_nat (n + 32)
  else c.

Fixpoint lower (s : string) : string :=
  match s with
  | EmptyString => EmptyString
  | String c s' => String (lower_char c) (lower s')
  end.

(** [s.startswith(p)] *)
Definition startswith (p s : string) : bool := String.prefix p s.

(** [sep.join(l)] *)
Definition join (sep : string) (l : list string) : string :=
  String.concat sep l.

(** [str(z)] for an [int]. *)
Definition str_of_Z (z : Z) : string := NilZero.string_of_int (Z.to_int z).

(** [len(s)] *)
Definition len (s : string) : Z := Z.of_nat (String.length s).

(** ** Numbers *)

(** An integer as an exact (not rounded) binary value. *)
Definition Z_as_SF (z : Z) : pyfloat :=
  match z with
  | Z0 => S754_zero false
  | Zpos p => S754_finite false p 0
  | Zneg p => S754_finite true p 0
  end.

(** [float(z)] for an [int]: round to nearest even; an integer that
    rounds beyond the largest finite double raises [OverflowError]. *)
Definition float_of_Z (z : Z) : Exc pyfloat :=
  match binary_normalize prec emax z 0 false with
  | S754_infinity _ => Raise (OverflowError "int too large to convert to float")
  | f => Ok f
  end.

(** [a / b] for two [int]s with [b <> 0]: the correctly rounded
    quotient. *)
Definition true_div (a b : Z) : pyfloat :=
  SFdiv prec emax (Z_as_SF a) (Z_as_SF b).

(** A decimal literal [n/10^k] of the source denotes the nearest double. *)
Definition lit_0_7 : pyfloat := true_div 7 10.
Definition lit_0_6 : pyfloat := true_div 6 10.

(** Exact comparison of a double with an integer, as Python compares a
    [float] with an [int]; [None] when the double is a NaN. *)
Definition SF_cmp_Z (f : pyfloat) (z : Z) : option comparison :=
  match f with
  | S754_nan => None
  | S754_infinity s => Some (if s then Lt else Gt)
  | S754_zero _ => Some (0 ?= z)
  | S754_finite s m e =>
      let sm := if s then Z.neg m else Z.pos m in
      Some (if 0 <=? e then (sm * 2 ^ e ?= z) else (sm ?= z * 2 ^ (- e)))
  end.

Definition Z_of_bool (b : bool) : Z := if b then 1 else 0.

(** The left operand of a comparison in the source is a [float]
    ([num_value]) or an [int] ([len(str_value)]). *)
Inductive num : Type :=
| NInt (z : Z)
| NFloat (f : pyfloat).

Definition num_type_name (x : num) : string :=
  match x with NInt _ => "int" | NFloat _ => "float" end.

Definition cmp_num_Z (x : num) (z : Z) : option comparison :=
  match x with
  | NInt a => Some (a ?= z)
  | NFloat f => SF_cmp_Z f z
  end.

Definition cmp_num_float (x : num) (g : pyfloat) : option comparison :=
  match x with
  | NInt a => option_map CompOpp (SF_cmp_Z g a)
  | NFloat f => SFcompare f g
  end.

(** Three-way comparison of a number with an object; ordering a number
    against [None] or a [str] raises [TypeError]. *)
Definition cmp_num (op : string) (x : num) (y : pyval) : Exc (option comparison) :=
  match y with
  | PBool b => Ok (cmp_num_Z x (Z_of_bool b))
  | PInt z => Ok (cmp_num_Z x z)
  | PFloat g => Ok (cmp_num_float x g)
  | PNone | PStr _ | POther _ _ _ =>
      Raise (TypeError ("'" ++ op ++ "' not supported between instances of '"
                        ++ num_type_name x ++ "' and '" ++ type_name y ++ "'"))
  end.

(** [x < y] *)
Definition num_lt (x : num) (y : pyval) : Exc bool :=
  c <- cmp_num "<" x y ;;
  Ok (match c with Some Lt => true | _ => false end).

(** [x > y] *)
Definition num_gt (x : num) (y : pyval) : Exc bool :=
  c <- cmp_num ">" x y ;;
  Ok (match c with Some Gt => true | _ => false end).

(** [x >= y] on two doubles. *)
Definition float_ge (x y : pyfloat) : bool :=
  match SFcompare x y with
  | Some (Gt | Eq) => true
  | _ => false
  end.

Definition float_add (x y : pyfloat) : pyfloat := SFadd prec emax x y.

(** ** [datetime.strptime]

    The library turns a format into a regular expression, one group per
    directive with its alternatives in a fixed order, matches it at the
    start of the text (ignoring case), refuses text left over, and builds
    a [datetime], which checks the calendar.  Every failure is a
    [ValueError].  The directives below are those of the source's
    formats. *)

Module Strptime.

Inductive directive : Type :=
| DYear | DMonth | DDay | DHour | DMinute | DSecond
| DSpaces                 (* a run of white space in the format: [\s+] *)
| DLit (c : ascii)
| DUnknown (c : ascii).   (* a directive this model does not know *)

Definition is_space (c : ascii) : bool :=
  let n := nat_of_ascii c in
  (((9 <=? n) && (n <=? 13)) || ((28 <=? n) && (n <=? 32))
   || (n =? 133) || (n =? 160))%nat.

Definition is_digit (c : ascii) : bool :=
  let n := nat_of_ascii c in ((48 <=? n) && (n <=? 57))%nat.

Definition digit_val (c : ascii) : Z := Z.of_nat (nat_of_ascii c) - 48.

Definition in_range (lo hi : ascii) (c : ascii) : bool :=
  ((nat_of_ascii lo <=? nat_of_ascii c) && (nat_of_ascii c <=? nat_of_ascii hi))%nat.

Fixpoint parse_format (fmt : list ascii) : list directive :=
  match fmt with
  | [] => []
  | ["%"%char] => [DUnknown "%"]
  | "%"%char :: c :: rest =>
      (match c with
       | "Y" => DYear | "m" => DMonth | "d" => DDay
       | "H" => DHour | "M" => DMinute | "S" => DSecond
       | _ => DUnknown c
       end)%char :: parse_format rest
  | c :: rest =>
      if is_space c then
        match parse_format rest with
        | DSpaces :: ds => DSpaces :: ds
        | ds => DSpaces :: ds
        end
      else DLit c :: parse_format rest
  end.

(** One alternative of a group: the classes of its one or two
    characters. *)
Definition alt : Type := list (ascii -> bool).

Definition one (c : ascii) : ascii -> bool := Ascii.eqb c.

Definition alternatives (d : directive) : list alt :=
  (match d with
   | DYear => [[is_digit; is_digit; is_digit; is_digit]]
   | DMonth => [[one "1"; in_range "0" "2"]; [one "0"; in_range "1" "9"];
                [in_range "1" "9"]]
   | DDay => [[one "3"; in_range "0" "1"]; [in_range "1" "2"; is_digit];
              [one "0"; in_range "1" "9"]; [in_range "1" "9"];
              [one " "; in_range "1" "9"]]
   | DHour => [[one "2"; in_range "0" "3"]; [in_range "0" "1"; is_digit];
               [is_digit]]
   | DMinute => [[in_range "0" "5"; is_digit]; [is_digit]]
   | DSecond => [[one "6"; in_range "0" "1"]; [in_range "0" "5"; is_digit];
                 [is_digit]]
   | DSpaces | DLit _ | DUnknown _ => []
   end)%char.

(** Match the classes of an alternative; the characters taken (most
    recent first) and the rest. *)
Fixpoint take_alt (a : alt) (s : list ascii) (taken : list ascii)
  : option (list ascii * list ascii) :=
  match a, s with
  | [], _ => Some (taken, s)
  | p :: a', c :: s' => if p c then take_alt a' s' (c :: taken) else None
  | _ :: _, [] => None
  end.

(** [int] of the characters taken: a blank counts as nothing. *)
Fixpoint int_of_rev (taken : list ascii) : Z :=
  match taken with
  | [] => 0
  | c :: rest => if is_digit c then digit_val c + 10 * int_of_rev rest
                 else int_of_rev rest
  end.

Record fields : Type := mk_fields {
  year : Z; month : Z; day : Z; hour : Z; minute : Z; second : Z }.

(** The defaults of the library: 1900-01-01 00:00:00. *)
Definition defaults : fields := mk_fields 1900 1 1 0 0 0.

Definition store (d : directive) (v : Z) (f : fields) : fields :=
  match d with
  | DYear => mk_fields v (month f) (day f) (hour f) (minute f) (second f)
  | DMonth => mk_fields (year f) v (day f) (hour f) (minute f) (second f)
  | DDay => mk_fields (year f) (month f) v (hour f) (minute f) (second f)
  | DHour => mk_fields (year f) (month f) (day f) v (minute f) (second f)
  | DMinute => mk_fields (year f) (month f) (day f) (hour f) v (second f)
  | DSecond => mk_fields (year f) (month f) (day f) (hour f) (minute f) v
  | _ => f
  end.

(** The suffixes left after taking k >= 1 blanks, longest run first. *)
Fixpoint after_spaces (s : list ascii) : list (list ascii) :=
  match s with
  | c :: s' => if is_space c then after_spaces s' ++ [s'] else []
  | [] => []
  end.

Definition eqb_nocase (a b : ascii) : bool :=
  Ascii.eqb (lower_char a) (lower_char b).

Section Backtrack.
Context {A B : Type} (k : A -> option B).
Fixpoint first_success (l : list A) : option B :=
  match l with
  | [] => None
  | a :: l' => match k a with
               | Some b => Some b
               | None => first_success l'
               end
  end.
End Backtrack.

(** The regular-expression match: alternatives in order, backtracking
    into the next one when the rest of the pattern fails. *)
Fixpoint match_directives (ds : list directive) (s : list ascii) (f : fields)
  : option (fields * list ascii) :=
  match ds with
  | [] => Some (f, s)
  | DLit c :: ds' =>
      match s with
      | c' :: s' => if eqb_nocase c c' then match_directives ds' s' f else None
      | [] => None
      end
  | DSpaces :: ds' =>
      first_success (fun s' => match_directives ds' s' f) (after_spaces s)
  | DUnknown _ :: _ => None
  | d :: ds' =>
      first_success
        (fun a => match take_alt a s [] with
                  | Some (taken, s') =>
                      match_directives ds' s' (store d (int_of_rev taken) f)
                  | None => None
                  end)
        (alternatives d)
  end.

Definition is_leap (y : Z) : bool :=
  ((y mod 4 =? 0) && negb (y mod 100 =? 0)) || (y mod 400 =? 0).

Definition days_in_month (y m : Z) : Z :=
  if m =? 2 then (if is_leap y then 29 else 28)
  else if (m =? 4) || (m =? 6) || (m =? 9) || (m =? 11) then 30
  else 31.

(** The checks of the [datetime] constructor. *)
Definition valid_datetime (f : fields) : bool :=
  (1 <=? year f) && (year f <=? 9999)
  && (1 <=? month f) && (month f <=? 12)
  && (1 <=? day f) && (day f <=? days_in_month (year f) (month f))
  && (0 <=? hour f) && (hour f <=? 23)
  && (0 <=? minute f) && (minute f <=? 59)
  && (0 <=? second f) && (second f <=? 59).

(** [datetime.strptime(value, fmt)]; [None] stands for [ValueError]. *)
Definition strptime (value fmt : string) : option fields :=
  match match_directives (parse_format (list_ascii_of_string fmt))
                         (list_ascii_of_string value) defaults with
  | Some (f, []) => if valid_datetime f then Some f else None
  | _ => None
  end.

End Strptime.

(** ** Dictionaries *)

Definition dict (V : Type) : Type := list (string * V).

Section Dict.
Context {V : Type}.

(** [d.get(k)] *)
Fixpoint dict_get (k : string) (d : dict V) : option V :=
  match d with
  | [] => None
  | (k', v) :: d' => if (k =? k')%string then Some v else dict_get k d'
  end.

(** [k in d] *)
Definition dict_mem (k : string) (d : dict V) : bool :=
  match dict_get k d with Some _ => true | None => false end.

(** [d[k] = v] *)
Fixpoint dict_set (k : string) (v : V) (d : dict V) : dict V :=
  match d with
  | [] => [(k, v)]
  | (k', v') :: d' =>
      if (k =? k')%string then (k', v) :: d' else (k', v') :: dict_set k v d'
  end.

(** [d.keys()] *)
Definition keys (d : dict V) : list string := map fst d.

(** A dictionary holds a key once. *)
Definition dict_wf (d : dict V) : Prop := NoDup (keys d).
End Dict.

(** ** Templates and results *)

(** A field's entry of the template: the keys the source reads, each
    present or absent. *)
Record field_def : Type := mk_field_def {
  fd_type : option string;
  fd_required : option pyval;
  fd_options : option (list pyval);
  fd_min : option pyval;
  fd_max : option pyval;
  fd_min_length : option pyval;
  fd_max_length : option pyval;
  fd_pattern : option pyval }.

Record template : Type := mk_template {
  fields : option (dict field_def) }.

(** [d.get(key, default)] on an optional key. *)
Definition get_or {A : Type} (o : option A) (default : A) : A :=
  match o with Some a => a | None => default end.

(** The result dictionary of [validate_against_template]. *)
Module Validation.
Record t : Type := mk {
  is_valid : bool;
  confidence : string;
  reasoning : list string;
  suggested_correction : pyval }.

Definition set_is_valid (b : bool) (r : t) : t :=
  mk b (confidence r) (reasoning r) (suggested_correction r).
Definition set_confidence (c : string) (r : t) : t :=
  mk (is_valid r) c (reasoning r) (suggested_correction r).
Definition append_reasoning (msg : string) (r : t) : t :=
  mk (is_valid r) (confidence r) (reasoning r ++ [msg])%list (suggested_correction r).
Definition set_suggested_correction (v : pyval) (r : t) : t :=
  mk (is_valid r) (confidence r) (reasoning r) v.
End Validation.

(** An entry of [enhanced_results]; [suggested_correction] is a key that
    may be absent. *)
Module Enhanced.
Record t : Type := mk {
  value : pyval;
  confidence : string;
  reasoning : list string;
  is_valid : bool;
  suggested_correction : option pyval }.
End Enhanced.

(** What [float(str)] gives: a double, or a [ValueError] with its
    message. *)
Inductive float_parse : Type :=
| Parsed (f : pyfloat)
| NotANumber (msg : string).

(** ** The source's functions *)

Section Core.

(** The interpreter's [float] on a [str], [repr] of a [float] and
    [re.match(pattern, string)] (whether it matched). *)
Variable float_of_str : string -> float_parse.
Variable float_repr : pyfloat -> string.
Variable re_match : string -> string -> Exc bool.

(** [str(value)] *)
Definition py_str (v : pyval) : string :=
  match v with
  | PNone => "None"
  | PBool b => if b then "True" else "False"
  | PInt z => str_of_Z z
  | PFloat f => float_repr f
  | PStr s => s
  | POther _ str_form _ => str_form
  end.

(** [float(value)] *)
Definition py_float (v : pyval) : Exc pyfloat :=
  match v with
  | PNone | POther _ _ _ => Raise (TypeError
      ("float() argument must be a string or a real number, not '"
       ++ type_name v ++ "'"))
  | PBool b => float_of_Z (Z_of_bool b)
  | PInt z => float_of_Z z
  | PFloat f => Ok f
  | PStr s => match float_of_str s with
              | Parsed f => Ok f
              | NotANumber msg => Raise (ValueError msg)
              end
  end.

(** [re.match(pattern, s)] with the pattern as the template holds it. *)
Definition py_re_match (pattern : pyval) (s : string) : Exc bool :=
  match pattern with
  | PStr p => re_match p s
  | _ => Raise (TypeError "first argument must be string or compiled pattern")
  end.

Definition date_formats : list string :=
  ["%Y-%m-%d"; "%m/%d/%Y"; "%d/%m/%Y"; "%Y-%m-%dT%H:%M:%S";
   "%Y-%m-%d %H:%M:%S"].

(** The loop over [date_formats]. *)
Fixpoint try_date_formats (value : string) (fmts : list string)
  : bool * string :=
  match fmts with
  | [] => (false, "Date format not recognized")
  | fmt :: rest =>
      match Strptime.strptime value fmt with
      | Some _ => (true, "Valid date (format: " ++ fmt ++ ")")
      | None => try_date_formats value rest
      end
  end.

Definition boolean_words : list string :=
  ["true"; "false"; "yes"; "no"; "1"; "0"].

(** [x in l] on strings. *)
Definition str_in (x : string) (l : list string) : bool :=
  existsb (String.eqb x) l.

(** [except (ValueError, TypeError) as e] *)
Definition except_value_type (body : Exc (bool * string))
  : Exc (bool * string) :=
  match body with
  | Raise (ValueError _ as e) | Raise (TypeError _ as e) =>
      Ok (false, "Validation failed: " ++ exn_str e)
  | r => r
  end.

Definition validate_field_type (value : pyval) (field_type : string)
  : Exc (bool * string) :=
  if is_none value then Ok (false, "Value is required")
  else except_value_type
    (if (lower field_type =? "string")%string then
       if negb (is_str value)
       then Ok (false, "Expected string, got " ++ type_name value)
       else Ok (true, "Valid string")
     else if (lower field_type =? "number")%string then
       _ <- py_float value ;;
       Ok (true, "Valid number")
     else if (lower field_type =? "date")%string then
       match value with
       | PStr s => Ok (try_date_formats s date_formats)
       | _ => Ok (false, "Expected date string, got " ++ type_name value)
       end
     else if (lower field_type =? "boolean")%string then
       match value with
       | PBool _ => Ok (true, "Valid boolean")
       | PStr s =>
           if str_in (lower s) boolean_words
           then Ok (true, "Valid boolean string")
           else Ok (false, "Expected boolean, got " ++ type_name value)
       | _ => Ok (false, "Expected boolean, got " ++ type_name value)
       end
     else if (lower field_type =? "enum")%string then
       Ok (true, "Enum type needs template validation")
     else Ok (false, "Unknown field type: " ++ field_type)).

(** [template.get('fields', {})] *)
Definition template_fields (tpl : template) : dict field_def :=
  get_or (fields tpl) [].

(** [value is None or value == ''] *)
Definition is_empty (value : pyval) : bool :=
  is_none value || eq_empty_str value.

(** [field_def.get('required', False)], as a condition. *)
Definition required (fd : field_def) : bool :=
  truthy (get_or (fd_required fd) (PBool false)).

(** ['key' in field_def and x < field_def['key']] *)
Definition below (x : num) (bound : option pyval) : Exc bool :=
  match bound with
  | Some b => num_lt x b
  | None => Ok false
  end.

(** ['key' in field_def and x > field_def['key']] *)
Definition above (x : num) (bound : option pyval) : Exc bool :=
  match bound with
  | Some b => num_gt x b
  | None => Ok false
  end.

(** ['pattern' in field_def and not re.match(field_def['pattern'], s)] *)
Definition pattern_fails (pattern : option pyval) (s : string) : Exc bool :=
  match pattern with
  | Some p => m <- py_re_match p s ;; Ok (negb m)
  | None => Ok false
  end.

Import Validation.

(** The checks after type validation, by field type. *)
Definition check_enum (value : pyval) (fd : field_def) (result : Validation.t)
  : Exc (option Validation.t) :=
  let enum_values := get_or (fd_options fd) [] in
  if negb (str_in (py_str value) (map py_str enum_values)) then
    let result := append_reasoning
      ("Value '" ++ py_str value ++ "' not in allowed values: "
       ++ join ", " (map py_str enum_values)) result in
    let result := set_suggested_correction
      (match enum_values with v :: _ => v | [] => PNone end) result in
    Ok (Some (set_confidence "Low" result))
  else Ok None.

Definition check_number (value : pyval) (fd : field_def) (result : Validation.t)
  : Exc (option Validation.t) :=
  num_value <- py_float value ;;
  lt <- below (NFloat num_value) (fd_min fd) ;;
  if lt then
    let mn := get_or (fd_min fd) PNone in
    let result := append_reasoning
      ("Value " ++ float_repr num_value ++ " is below minimum " ++ py_str mn)
      result in
    Ok (Some (set_confidence "Low" (set_suggested_correction mn result)))
  else
    gt <- above (NFloat num_value) (fd_max fd) ;;
    if gt then
      let mx := get_or (fd_max fd) PNone in
      let result := append_reasoning
        ("Value " ++ float_repr num_value ++ " is above maximum " ++ py_str mx)
        result in
      Ok (Some (set_confidence "Low" (set_suggested_correction mx result)))
    else Ok None.

Definition check_string (value : pyval) (fd : field_def) (result : Validation.t)
  : Exc (option Validation.t) :=
  let str_value := py_str value in
  short <- below (NInt (len str_value)) (fd_min_length fd) ;;
  if short then
    Ok (Some (set_confidence "Medium" (append_reasoning
      ("String is too short (min " ++ py_str (get_or (fd_min_length fd) PNone)
       ++ " characters)") result)))
  else
    long <- above (NInt (len str_value)) (fd_max_length fd) ;;
    if long then
      Ok (Some (set_confidence "Medium" (append_reasoning
        ("String is too long (max " ++ py_str (get_or (fd_max_length fd) PNone)
         ++ " characters)") result)))
    else
      nomatch <- pattern_fails (fd_pattern fd) str_value ;;
      if nomatch then
        Ok (Some (set_confidence "Medium" (append_reasoning
          ("String does not match expected pattern: "
           ++ py_str (get_or (fd_pattern fd) PNone)) result)))
      else Ok None.

(** The [if]/[elif] chain on the field type: [Some r] is an early
    [return r], [None] falls through to the end of the function. *)
Definition additional_validations (field_type : string) (value : pyval)
    (fd : field_def) (result : Validation.t) : Exc (option Validation.t) :=
  if (lower field_type =? "enum")%string then check_enum value fd result
  else if (lower field_type =? "number")%string then check_number value fd result
  else if (lower field_type =? "string")%string then check_string value fd result
  else Ok None.

Definition validate_against_template (field_name : string) (value : pyval)
    (tpl : template) : Exc Validation.t :=
  let result := Validation.mk false "Low" [] PNone in
  match dict_get field_name (template_fields tpl) with
  | None =>
      Ok (append_reasoning
            ("Field '" ++ field_name ++ "' not found in template") result)
  | Some fd =>
      let field_type := get_or (fd_type fd) "string" in
      if required fd && is_empty value then
        Ok (append_reasoning "Required field is missing or empty" result)
      else if is_empty value then
        Ok (append_reasoning "Optional field is empty"
              (set_confidence "High" (set_is_valid true result)))
      else
        tr <- validate_field_type value field_type ;;
        let '(ok, reason) := tr in
        let result := append_reasoning ("Type validation: " ++ reason) result in
        if negb ok then Ok (set_confidence "Low" result)
        else
          early <- additional_validations field_type value fd result ;;
          match early with
          | Some r => Ok r
          | None => Ok (set_confidence "High" (set_is_valid true result))
          end
  end.

(** The entry built from a field's value and its validation; the
    correction is stored only when it is not [None]. *)
Definition enhanced_of (value : pyval) (validation : Validation.t)
  : Enhanced.t :=
  Enhanced.mk value (confidence validation) (reasoning validation)
    (is_valid validation)
    (if is_none (suggested_correction validation) then None
     else Some (suggested_correction validation)).

(** The entry the first loop stores for a field it validates. *)
Definition entry_for (name : string) (value : pyval) (tpl : template)
  : option Enhanced.t :=
  match validate_against_template name value tpl with
  | Ok validation => Some (enhanced_of value validation)
  | Raise _ => None
  end.

(** An entry under a name that is not skipped and that is the entry its
    own value validates to. *)
Definition consistent (tpl : template) (item : string * Enhanced.t) : Prop :=
  startswith "_" (fst item) = false
  /\ entry_for (fst item) (Enhanced.value (snd item)) tpl = Some (snd item).

(** The loop over [extracted_data.items()]. *)
Fixpoint process_fields (items : list (string * pyval)) (tpl : template)
    (enhanced_results : dict Enhanced.t) : Exc (dict Enhanced.t) :=
  match items with
  | [] => Ok enhanced_results
  | (field_name, value) :: rest =>
      if startswith "_" field_name then
        process_fields rest tpl enhanced_results
      else
        validation <- validate_against_template field_name value tpl ;;
        process_fields rest tpl
          (dict_set field_name (enhanced_of value validation) enhanced_results)
  end.

Definition missing_required : Enhanced.t :=
  Enhanced.mk PNone "Low" ["Required field is missing"] false None.

(** The loop over [template['fields'].items()]. *)
Fixpoint sweep_required (items : list (string * field_def))
    (enhanced_results : dict Enhanced.t) : dict Enhanced.t :=
  match items with
  | [] => enhanced_results
  | (field_name, fd) :: rest =>
      if required fd && negb (dict_mem field_name enhanced_results) then
        sweep_required rest (dict_set field_name missing_required enhanced_results)
      else sweep_required rest enhanced_results
  end.

Definition enhance_confidence_with_template (extracted_data : dict pyval)
    (tpl : template) : Exc (dict Enhanced.t) :=
  enhanced_results <- process_fields extracted_data tpl [] ;;
  match fields tpl with
  | Some fs => Ok (sweep_required fs enhanced_results)
  | None => Ok enhanced_results
  end.

End Core.

(** [confidence_counts[confidence] += 1] when the key is one of the three. *)
Definition count_confidence (confidence_counts : dict Z) (field_data : Enhanced.t)
  : dict Z :=
  let confidence := Enhanced.confidence field_data in
  match dict_get confidence confidence_counts with
  | Some n => dict_set confidence (n + 1) confidence_counts
  | None => confidence_counts
  end.

(** [confidence_counts[key]] for a key the dictionary holds. *)
Definition count_of (key : string) (confidence_counts : dict Z) : Z :=
  get_or (dict_get key confidence_counts) 0.

Definition calculate_overall_confidence (enhanced_results : dict Enhanced.t)
  : string :=
  match enhanced_results with
  | [] => "Low"
  | _ =>
      let confidence_counts :=
        fold_left count_confidence (map snd enhanced_results)
          [("High", 0); ("Medium", 0); ("Low", 0)] in
      let total_fields := Z.of_nat (List.length enhanced_results) in
      let high_pct := true_div (count_of "High" confidence_counts) total_fields in
      let medium_pct := true_div (count_of "Medium" confidence_counts) total_fields in
      if float_ge high_pct lit_0_7 then "High"
      else if float_ge (float_add high_pct medium_pct) lit_0_6 then "Medium"
      else "Low"
  end.

(** One round of the loop of [format_confidence_results]. *)
Definition format_field (include_reasoning : bool) (formatted : dict pyval)
    (item : string * Enhanced.t) : dict pyval :=
  let '(field_name, field_data) := item in
  let formatted := dict_set field_name (Enhanced.value field_data) formatted in
  let formatted :=
    dict_set (field_name ++ "_confidence")
             (PStr (Enhanced.confidence field_data)) formatted in
  match include_reasoning, Enhanced.reasoning field_data with
  | true, _ :: _ =>
      dict_set (field_name ++ "_reasoning")
               (PStr (join " " (Enhanced.reasoning field_data))) formatted
  | _, _ => formatted
  end.

Definition format_confidence_results (enhanced_results : dict Enhanced.t)
    (include_reasoning : bool) : dict pyval :=
  let formatted := fold_left (format_field include_reasoning) enhanced_results [] in
  dict_set "_overall_confidence"
           (PStr (calculate_overall_confidence enhanced_results)) formatted.

(** ** [modules/metadata_extraction.py]

    The values of this module are decoded JSON documents and the
    dictionaries built from them: a [dict] may be keyed by any hashable
    value.  A NaN is the decoder's one constant object, so as a key it
    equals itself. *)

Module MetadataExtraction.

#[warnings="-register-all"]
Inductive obj : Type :=
| ONone
| OBool (b : bool)
| OInt (z : Z)
| OFloat (f : pyfloat)
| OStr (s : string)
| OList (items : list obj)
| ODict (items : list (obj * obj)).

(** [type(o).__name__] *)
Definition type_name (o : obj) : string :=
  match o with
  | ONone => "NoneType"
  | OBool _ => "bool"
  | OInt _ => "int"
  | OFloat _ => "float"
  | OStr _ => "str"
  | OList _ => "list"
  | ODict _ => "dict"
  end.

(** [isinstance(o, dict)] *)
Definition is_dict (o : obj) : bool :=
  match o with ODict _ => true | _ => false end.

(** Truth value of an object. *)
Definition truthy (o : obj) : bool :=
  match o with
  | ONone => false
  | OBool b => b
  | OInt z => negb (z =? 0)
  | OFloat f => negb (SF_is_zero f)
  | OStr s => negb (s =? "")%string
  | OList items => match items with [] => false | _ => true end
  | ODict items => match items with [] => false | _ => true end
  end.

(** A [list] or a [dict] cannot be a key. *)
Definition hashable (o : obj) : bool :=
  match o with OList _ | ODict _ => false | _ => true end.

(** Equality of two keys: numbers by value across [bool], [int] and
    [float]; strings by their characters; nothing else across kinds. *)
Definition key_eqb (a b : obj) : bool :=
  match a, b with
  | ONone, ONone => true
  | OStr s, OStr t => (s =? t)%string
  | OFloat S754_nan, OFloat S754_nan => true
  | OBool x, OBool y => Bool.eqb x y
  | OBool x, OInt z | OInt z, OBool x => Z_of_bool x =? z
  | OInt x, OInt y => x =? y
  | OBool x, OFloat f | OFloat f, OBool x =>
      match SF_cmp_Z f (Z_of_bool x) with Some Eq => true | _ => false end
  | OInt z, OFloat f | OFloat f, OInt z =>
      match SF_cmp_Z f z with Some Eq => true | _ => false end
  | OFloat f, OFloat g =>
      match SFcompare f g with Some Eq => true | _ => false end
  | _, _ => false
  end.

(** [d.get(k)] *)
Fixpoint oget (k : obj) (d : list (obj * obj)) : option obj :=
  match d with
  | [] => None
  | (k', v) :: d' => if key_eqb k k' then Some v else oget k d'
  end.

(** [k in d] *)
Definition omem (k : obj) (d : list (obj * obj)) : bool :=
  match oget k d with Some _ => true | None => false end.

(** [d[k] = v] for a hashable [k]. *)
Fixpoint oset (k v : obj) (d : list (obj * obj)) : list (obj * obj) :=
  match d with
  | [] => [(k, v)]
  | (k', v') :: d' =>
      if key_eqb k k' then (k', v) :: d' else (k', v') :: oset k v d'
  end.

(** [d[k] = v] *)
Definition setitem (k v : obj) (d : list (obj * obj))
  : Exc (list (obj * obj)) :=
  if hashable k then Ok (oset k v d)
  else Raise (TypeError ("unhashable type: '" ++ type_name k ++ "'")).

(** [p in s] on two strings. *)
Fixpoint substring_in (p s : string) : bool :=
  String.prefix p s
  || match s with
     | EmptyString => false
     | String _ s' => substring_in p s'
     end.

(** ['k' in o] *)
Definition contains (k : string) (o : obj) : Exc bool :=
  match o with
  | ODict d => Ok (omem (OStr k) d)
  | OList items => Ok (existsb (key_eqb (OStr k)) items)
  | OStr s => Ok (substring_in k s)
  | _ => Raise (TypeError
           ("argument of type '" ++ type_name o ++ "' is not iterable"))
  end.

(** [o['k']] where ['k' in o] holds. *)
Definition subscript (o : obj) (k : string) : Exc obj :=
  match o with
  | ODict d => match oget (OStr k) d with
               | Some v => Ok v
               | None => Raise (OtherError "KeyError" ("'" ++ k ++ "'"))
               end
  | OList _ => Raise (TypeError
      "list indices must be integers or slices, not str")
  | OStr _ => Raise (TypeError "string indices must be integers, not 'str'")
  | _ => Raise (TypeError
           ("'" ++ type_name o ++ "' object is not subscriptable"))
  end.

(** [d.get('k', default)] *)
Definition get_default (k : string) (d : list (obj * obj)) (default : obj)
  : obj :=
  get_or (oget (OStr k) d) default.

(** The dictionary stored for a field. *)
Definition standard_entry (value confidence reasoning : obj) : obj :=
  ODict [(OStr "value", value); (OStr "confidence", confidence);
         (OStr "reasoning", reasoning)].

(** The entry read from a dictionary that holds a value. *)
Definition entry_of_dict (d : list (obj * obj)) : obj :=
  standard_entry (get_default "value" d ONone)
                 (get_default "confidence" d (OStr "Medium"))
                 (get_default "reasoning" d (OStr "No reasoning provided")).

(** The loop over [answer_data['fields']]. *)
Fixpoint collect_fields (fields : list obj) (processed_response : list (obj * obj))
  : Exc (list (obj * obj)) :=
  match fields with
  | [] => Ok processed_response
  | field :: rest =>
      match field with
      | ODict f =>
          match oget (OStr "key") f with
          | Some key =>
              processed_response <-
                setitem key (entry_of_dict f) processed_response ;;
              collect_fields rest processed_response
          | None => collect_fields rest processed_response
          end
      | _ => collect_fields rest processed_response
      end
  end.

(** The entry for a direct key of the answer. *)
Definition entry_of_value (value : obj) : obj :=
  match value with
  | ODict v =>
      if omem (OStr "value") v then entry_of_dict v
      else standard_entry value (OStr "Medium")
             (OStr "No confidence information provided")
  | _ => standard_entry value (OStr "Medium")
           (OStr "No confidence information provided")
  end.

(** The loop over [answer_data.items()]. *)
Fixpoint collect_direct (items : list (obj * obj))
    (processed_response : list (obj * obj)) : Exc (list (obj * obj)) :=
  match items with
  | [] => Ok processed_response
  | (key, value) :: rest =>
      processed_response <-
        setitem key (entry_of_value value) processed_response ;;
      collect_direct rest processed_response
  end.

(** The body of the [try] of [_process_ai_response]. *)
Definition process_try (response_data : obj) : Exc obj :=
  has_answer <- contains "answer" response_data ;;
  answer <- (if has_answer then
               a <- subscript response_data "answer" ;; Ok (Some a)
             else Ok None) ;;
  processed_response <-
    match answer with
    | Some (ODict answer_data) =>
        match oget (OStr "fields") answer_data with
        | Some (OList fields) => collect_fields fields []
        | _ => collect_direct answer_data []
        end
    | _ => Ok []
    end ;;
  match processed_response, response_data with
  | [], ODict _ => Ok response_data
  | _, _ => Ok (ODict processed_response)
  end.

Definition _process_ai_response (response_data : obj) : obj :=
  match process_try response_data with
  | Ok result => result
  | Raise _ =>
      if is_dict response_data then response_data
      else ODict [(OStr "error", OStr "Invalid response format")]
  end.

(** *** The two extraction calls

    The client, the HTTP call and the texts of the system messages are
    the environment of these functions. *)

(** An object that may hold an [access_token] attribute. *)
Record token_holder : Type := mk_token_holder {
  holder_class : string;
  holder_access_token : option obj }.

(** The client: its [_oauth] and [auth] attributes, when present. *)
Record client : Type := mk_client {
  client_oauth : option token_holder;
  client_auth : option token_holder }.

(** What [requests.post] returns; [json] is the outcome of
    [response.json()]. *)
Record response : Type := mk_response {
  status_code : Z;
  reason : string;
  text : string;
  json : Exc obj }.

Section Calls.

(** [requests.post(url, headers=headers, json=body)], [str] of an
    object that is not a string, and the two system messages. *)
Variable post : string -> obj -> obj -> Exc response.
Variable str_other : obj -> string.
Variable structured_system_message : string.
Variable freeform_system_message : string -> string.

(** [str(o)] *)
Definition str (o : obj) : string :=
  match o with OStr s => s | _ => str_other o end.

(** The lookup of the access token, up to the [raise]. *)
Definition get_access_token (c : client) : Exc obj :=
  access_token <-
    match client_oauth c with
    | Some oauth =>
        match holder_access_token oauth with
        | Some token => Ok token
        | None => Raise (OtherError "AttributeError"
            ("'" ++ holder_class oauth
             ++ "' object has no attribute 'access_token'"))
        end
    | None =>
        match client_auth c with
        | Some auth => Ok (get_or (holder_access_token auth) ONone)
        | None => Ok ONone
        end
    end ;;
  if negb (truthy access_token)
  then Raise (ValueError "Could not retrieve access token from client")
  else Ok access_token.

Definition headers_of (access_token : obj) : obj :=
  ODict [(OStr "Authorization", OStr ("Bearer " ++ str access_token));
         (OStr "Content-Type", OStr "application/json")].

Definition ai_agent_of (ai_model system_message : string) : obj :=
  let text_agent :=
    ODict [(OStr "model", OStr ai_model); (OStr "mode", OStr "default");
           (OStr "system_message", OStr system_message)] in
  ODict [(OStr "type", OStr "ai_agent_extract_structured");
         (OStr "long_text", text_agent); (OStr "basic_text", text_agent)].

Definition api_url : string := "https://api.box.com/2.0/ai/extract_structured".

Definition base_request_body (file_id ai_model system_message : string)
  : list (obj * obj) :=
  [(OStr "items",
    OList [ODict [(OStr "id", OStr file_id); (OStr "type", OStr "file")]]);
   (OStr "ai_agent", ai_agent_of ai_model system_message)].

(** [field.get(...)] needs a dictionary. *)
Definition as_dict (field : obj) : Exc (list (obj * obj)) :=
  match field with
  | ODict d => Ok d
  | _ => Raise (OtherError "AttributeError"
           ("'" ++ type_name field ++ "' object has no attribute 'get'"))
  end.

(** One round of the loop that builds [api_fields]. *)
Definition api_field (field : obj) : Exc obj :=
  d <- as_dict field ;;
  let field_def :=
    [(OStr "key", get_default "key" d (OStr ""));
     (OStr "displayName",
      get_default "displayName" d (get_default "key" d (OStr "")));
     (OStr "type", get_default "type" d (OStr "string"))] in
  let field_def :=
    match oget (OStr "description") d with
    | Some description => oset (OStr "description") description field_def
    | None => field_def
    end in
  let field_def :=
    match oget (OStr "options") d with
    | Some options => oset (OStr "options") options field_def
    | None => field_def
    end in
  Ok (ODict field_def).

Fixpoint api_fields_of (fields : list obj) : Exc (list obj) :=
  match fields with
  | [] => Ok []
  | field :: rest =>
      field_def <- api_field field ;;
      api_fields <- api_fields_of rest ;;
      Ok (field_def :: api_fields)
  end.

(** The characters of a string, one [str] each. *)
Fixpoint chars (s : string) : list obj :=
  match s with
  | EmptyString => []
  | String c s' => OStr (String c EmptyString) :: chars s'
  end.

(** [for field in fields] *)
Definition iterate (fields : obj) : Exc (list obj) :=
  match fields with
  | OList items => Ok items
  | ODict items => Ok (map fst items)
  | OStr s => Ok (chars s)
  | _ => Raise (TypeError
           ("'" ++ type_name fields ++ "' object is not iterable"))
  end.

Definition structured_request_body (file_id : string) (fields metadata_template : obj)
    (ai_model : string) : Exc obj :=
  let request_body := base_request_body file_id ai_model structured_system_message in
  if truthy metadata_template then
    Ok (ODict (oset (OStr "metadata_template") metadata_template request_body))
  else if truthy fields then
    items <- iterate fields ;;
    api_fields <- api_fields_of items ;;
    Ok (ODict (oset (OStr "fields") (OList api_fields) request_body))
  else Ok (ODict request_body).

(** The answer of the two calls to a response that is not 200. *)
Definition api_error (r : response) : obj :=
  ODict [(OStr "error",
          OStr ("Error in Box AI API call: " ++ str_of_Z (status_code r)
                ++ " " ++ reason r));
         (OStr "details", OStr (text r))].

(** The call of line 138 passes three positional arguments to a function
    of two: the interpreter raises before the function runs. *)
Definition enhance_call_arity : exn :=
  TypeError
    "enhance_confidence_with_template() takes 2 positional arguments but 3 were given".

(** The body of the [try] of [extract_structured_metadata]. *)
Definition extract_structured_try (c : client) (file_id : string)
    (fields metadata_template : obj) (ai_model document_text : string)
  : Exc obj :=
  access_token <- get_access_token c ;;
  request_body <-
    structured_request_body file_id fields metadata_template ai_model ;;
  r <- post api_url (headers_of access_token) request_body ;;
  if negb (status_code r =? 200) then Ok (api_error r)
  else
    response_data <- json r ;;
    let processed_response := _process_ai_response response_data in
    if truthy metadata_template && is_dict processed_response
    then Raise enhance_call_arity
    else Ok processed_response.

(** [except Exception as e: return {'error': str(e)}] *)
Definition error_of (body : Exc obj) : obj :=
  match body with
  | Ok result => result
  | Raise e => ODict [(OStr "error", OStr (exn_str e))]
  end.

Definition extract_structured_metadata (c : client) (file_id : string)
    (fields metadata_template : obj) (ai_model document_text : string) : obj :=
  error_of (extract_structured_try c file_id fields metadata_template ai_model
              document_text).

(** The body of the [try] of [extract_freeform_metadata]. *)
Definition extract_freeform_try (c : client) (file_id prompt ai_model
    document_text : string) : Exc obj :=
  access_token <- get_access_token c ;;
  let request_body :=
    ODict (base_request_body file_id ai_model (freeform_system_message prompt)) in
  r <- post api_url (headers_of access_token) request_body ;;
  if negb (status_code r =? 200) then Ok (api_error r)
  else
    response_data <- json r ;;
    Ok (_process_ai_response response_data).

Definition extract_freeform_metadata (c : client) (file_id prompt ai_model
    document_text : string) : obj :=
  error_of (extract_freeform_try c file_id prompt ai_model document_text).

End Calls.

(** *** Definitions used to state the properties of this module *)

(** [field['key']] of an element of the fields array that has one. *)
Definition field_key (field : obj) : option obj :=
  match field with
  | ODict f => oget (OStr "key") f
  | _ => None
  end.

(** The entry stored for an element of the fields array. *)
Definition entry_of_field (field : obj) : obj :=
  match field with
  | ODict f => entry_of_dict f
  | _ => ONone
  end.

(** The last element of the fields array whose key is [name]. *)
Fixpoint last_with_key (name : string) (fields : list obj) : option obj :=
  match fields with
  | [] => None
  | field :: rest =>
      match last_with_key name rest with
      | Some later => Some later
      | None =>
          match field_key field with
          | Some (OStr s) => if (s =? name)%string then Some field else None
          | _ => None
          end
      end
  end.

(** A dictionary of exactly [value], [confidence] and [reasoning]. *)
Definition is_standard_entry (o : obj) : Prop :=
  exists value confidence reasoning,
    o = standard_entry value confidence reasoning.

(** A dictionary with an [error] message first. *)
Definition is_error (o : obj) : Prop :=
  exists msg rest, o = ODict ((OStr "error", OStr msg) :: rest).

End MetadataExtraction.

(** A stand-in for the environment of the extraction calls, to evaluate
    them on examples: a client built like the mock client of the module,
    a service that answers 200 with one extracted field, and one that
    answers 401. *)
Module SampleService.
Import MetadataExtraction.

Definition str_other (o : obj) : string := "<object>".

Definition client_with_token : client :=
  mk_client (Some (mk_token_holder "MockOAuth" (Some (OStr "test_access_token"))))
            None.

Definition answer : obj :=
  ODict [(OStr "answer",
          ODict [(OStr "total",
                  ODict [(OStr "value", OInt 12);
                         (OStr "confidence", OStr "High")])])].

Definition post_ok (url : string) (headers body : obj) : Exc response :=
  Ok (mk_response 200 "OK" "" (Ok answer)).

Definition post_unauthorized (url : string) (headers body : obj)
  : Exc response :=
  Ok (mk_response 401 "Unauthorized" "token expired"
        (Raise (ValueError "Expecting value: line 1 column 1 (char 0)"))).

End SampleService.

(** ** Definitions used to state the properties *)

(** The confidences of the entries, in order. *)
Definition confidences (enhanced_results : dict Enhanced.t) : list string :=
  map (fun item => Enhanced.confidence (snd item)) enhanced_results.

(** The number of entries of [enhanced_results] at confidence [c]. *)
Definition count_at (c : string) (enhanced_results : dict Enhanced.t) : Z :=
  Z.of_nat (List.length
    (filter (fun confidence => (confidence =? c)%string)
            (confidences enhanced_results))).

(** The aggregation policy on the two fractions. *)
Definition policy (high_fraction medium_fraction : pyfloat) : string :=
  if float_ge high_fraction lit_0_7 then "High"
  else if float_ge (float_add high_fraction medium_fraction) lit_0_6 then "Medium"
  else "Low".

(** The same policy on exact fractions [high/total] and [medium/total]. *)
Definition exact_policy (high medium total : Z) : string :=
  if 7 * total <=? 10 * high then "High"
  else if 6 * total <=? 10 * (high + medium) then "Medium"
  else "Low".

(** Whether the policy on the rounded fractions and the policy on the
    exact ones agree at [h] High and [m] Medium entries out of [t]. *)
Definition agrees_at (t h m : nat) : bool :=
  (policy (true_div (Z.of_nat h) (Z.of_nat t)) (true_div (Z.of_nat m) (Z.of_nat t))
   =? exact_policy (Z.of_nat h) (Z.of_nat m) (Z.of_nat t))%string.

(** ... on every triple with [h + m <= t] and [1 <= t <= n]. *)
Definition agrees_upto (n : nat) : bool :=
  forallb (fun t =>
    forallb (fun h =>
      forallb (fun m => agrees_at t h m) (seq 0 (S t - h)))
      (seq 0 (S t)))
    (seq 1 n).

(** The verdict of an entry. *)
Definition verdict (e : Enhanced.t) : bool * string :=
  (Enhanced.is_valid e, Enhanced.confidence e).

(** The extracted data rebuilt from the [value] of each entry. *)
Definition values_of (enhanced_results : dict Enhanced.t) : dict pyval :=
  map (fun item => (fst item, Enhanced.value (snd item))) enhanced_results.

(** Whether the template marks [name] required in some entry. *)
Definition marked_required (name : string) (fs : dict field_def) : bool :=
  existsb (fun item => (fst item =? name)%string && required (snd item)) fs.

(** The bindings a field contributes to the flat mapping, by the key
    convention. *)
Definition flat_items (include_reasoning : bool) (item : string * Enhanced.t)
  : dict pyval :=
  let '(field_name, field_data) := item in
  List.app
    [(field_name, Enhanced.value field_data);
     (field_name ++ "_confidence", PStr (Enhanced.confidence field_data))]
    match include_reasoning, Enhanced.reasoning field_data with
    | true, _ :: _ =>
        [(field_name ++ "_reasoning",
          PStr (join " " (Enhanced.reasoning field_data)))]
    | _, _ => []
    end.

Definition flat_expected (enhanced_results : dict Enhanced.t)
    (include_reasoning : bool) : dict pyval :=
  (flat_map (flat_items include_reasoning) enhanced_results
   ++ [("_overall_confidence",
        PStr (calculate_overall_confidence enhanced_results))])%list.

(** A store of one binding, as a step of a loop. *)
Definition store (d : dict pyval) (binding : string * pyval) : dict pyval :=
  dict_set (fst binding) (snd binding) d.

(** The three tiers. *)
Definition is_tier (c : string) : Prop :=
  c = "High" \/ c = "Medium" \/ c = "Low".

Definition validation_inv (r : Validation.t) : Prop :=
  is_tier (Validation.confidence r)
  /\ (Validation.is_valid r = true -> Validation.confidence r = "High")
  /\ (Validation.suggested_correction r <> PNone ->
      Validation.is_valid r = false /\ Validation.confidence r = "Low").

Definition enhanced_inv (e : Enhanced.t) : Prop :=
  is_tier (Enhanced.confidence e)
  /\ (Enhanced.is_valid e = true -> Enhanced.confidence e = "High")
  /\ (Enhanced.suggested_correction e <> None ->
      Enhanced.is_valid e = false /\ Enhanced.confidence e = "Low").

(** A bound of the template that a number can be ordered against. *)
Definition is_number (v : pyval) : bool :=
  match v with PBool _ | PInt _ | PFloat _ => true | _ => false end.

Definition bound_ok (bound : option pyval) : bool :=
  match bound with Some v => is_number v | None => true end.

(** An [int] that [str] renders: from version 3.11 the interpreter
    refuses to convert an integer of more than 4300 digits. *)
Definition renders (z : Z) : Prop := Z.abs z < 10 ^ 4300.

(** The same for a bound that may be absent. *)
Definition bound_renders (bound : option Z) : Prop :=
  match bound with
  | Some z => renders z
  | None => True
  end.

(** A stand-in for the interpreter's library, to evaluate the functions on
    examples: [float] reads unsigned decimal integers only, [repr] of a
    double is not rendered, and a pattern matches as a literal prefix. *)
Module Sample.

Fixpoint digits_value (s : string) (acc : Z) : option Z :=
  match s with
  | EmptyString => Some acc
  | String c s' =>
      if Strptime.is_digit c
      then digits_value s' (10 * acc + Strptime.digit_val c)
      else None
  end.

Definition float_of_str (s : string) : float_parse :=
  match s, digits_value s 0 with
  | String _ _, Some z => Parsed (binary_normalize prec emax z 0 false)
  | _, _ => NotANumber ("could not convert string to float: '" ++ s ++ "'")
  end.

Definition float_repr (f : pyfloat) : string := "<float>".

Definition re_match (pattern s : string) : Exc bool :=
  Ok (String.prefix pattern s).

End Sample.

(** Every way [validate_against_template] returns: the branch taken and
    the result built there. *)
Inductive outcome (float_of_str : string -> float_parse)
    (name : string) (value : pyval) (tpl : template) : Validation.t -> Prop :=
| NotInTemplate :
    dict_get name (template_fields tpl) = None ->
    outcome float_of_str name value tpl
      (Validation.mk false "Low"
         [("Field '" ++ name ++ "' not found in template")] PNone)
| RequiredEmpty fd :
    dict_get name (template_fields tpl) = Some fd ->
    required fd = true -> is_empty value = true ->
    outcome float_of_str name value tpl
      (Validation.mk false "Low" ["Required field is missing or empty"] PNone)
| OptionalEmpty fd :
    dict_get name (template_fields tpl) = Some fd ->
    required fd = false -> is_empty value = true ->
    outcome float_of_str name value tpl
      (Validation.mk true "High" ["Optional field is empty"] PNone)
| WrongType fd reason :
    dict_get name (template_fields tpl) = Some fd ->
    is_empty value = false ->
    validate_field_type float_of_str value (get_or (fd_type fd) "string")
      = Ok (false, reason) ->
    outcome float_of_str name value tpl
      (Validation.mk false "Low" [("Type validation: " ++ reason)] PNone)
| Passed fd reason :
    dict_get name (template_fields tpl) = Some fd ->
    is_empty value = false ->
    validate_field_type float_of_str value (get_or (fd_type fd) "string")
      = Ok (true, reason) ->
    outcome float_of_str name value tpl
      (Validation.mk true "High" [("Type validation: " ++ reason)] PNone)
| NotAnOption fd reason msg :
    dict_get name (template_fields tpl) = Some fd ->
    is_empty value = false ->
    lower (get_or (fd_type fd) "string") = "enum" ->
    outcome float_of_str name value tpl
      (Validation.mk false "Low" [("Type validation: " ++ reason); msg]
         (match get_or (fd_options fd) [] with v :: _ => v | [] => PNone end))
| OutOfRange fd reason msg bound :
    dict_get name (template_fields tpl) = Some fd ->
    is_empty value = false ->
    lower (get_or (fd_type fd) "string") = "number" ->
    fd_min fd = Some bound \/ fd_max fd = Some bound ->
    outcome float_of_str name value tpl
      (Validation.mk false "Low" [("Type validation: " ++ reason); msg]
         bound)
| BadShape fd reason msg :
    dict_get name (template_fields tpl) = Some fd ->
    is_empty value = false ->
    lower (get_or (fd_type fd) "string") = "string" ->
    is_str value = true ->
    outcome float_of_str name value tpl
      (Validation.mk false "Medium" [("Type validation: " ++ reason); msg]
         PNone).

(** * Properties *)

Open Scope list_scope.

(** ** The functions on examples *)

Example validate_field_type_none :
  validate_field_type Sample.float_of_str PNone "boolean"
  = Ok (false, "Value is required").
Proof. reflexivity. Qed.

Example validate_field_type_booleans :
  map (fun v => validate_field_type Sample.float_of_str v "boolean")
      [PStr "true"; PStr "0"; PBool true; PStr "maybe"]
  = [Ok (true, "Valid boolean string"); Ok (true, "Valid boolean string");
     Ok (true, "Valid boolean"); Ok (false, "Expected boolean, got str")].
Proof. vm_compute. reflexivity. Qed.

Example validate_field_type_dates :
  map (fun s => validate_field_type Sample.float_of_str (PStr s) "date")
      ["2024-02-29"; "2023-02-29"; "2023-01-01T10:20:30";
       "2023-01-01   10:20:30"; "2023-01-01 10:20"]
  = [Ok (true, "Valid date (format: %Y-%m-%d)");
     Ok (false, "Date format not recognized");
     Ok (true, "Valid date (format: %Y-%m-%dT%H:%M:%S)");
     Ok (true, "Valid date (format: %Y-%m-%d %H:%M:%S)");
     Ok (false, "Date format not recognized")].
Proof. vm_compute. reflexivity. Qed.

Example validate_against_template_above_maximum :
  validate_against_template Sample.float_of_str Sample.float_repr
    Sample.re_match "amount" (PInt 1500)
    (mk_template (Some
       [("amount", mk_field_def (Some "number") None None (Some (PInt 0))
                                (Some (PInt 1000)) None None None)]))
  = Ok (Validation.mk false "Low"
          ["Type validation: Valid number";
           "Value <float> is above maximum 1000"] (PInt 1000)).
Proof. vm_compute. reflexivity. Qed.

Example validate_against_template_too_short :
  validate_against_template Sample.float_of_str Sample.float_repr
    Sample.re_match "code" (PStr "ab")
    (mk_template (Some
       [("code", mk_field_def None None None None None (Some (PInt 3)) None
                              (Some (PStr "a")))]))
  = Ok (Validation.mk false "Medium"
          ["Type validation: Valid string";
           "String is too short (min 3 characters)"] PNone).
Proof. vm_compute. reflexivity. Qed.

(** ** Dictionaries *)

Section DictFacts.
Context {V : Type}.
Implicit Types (d : dict V) (k : string) (v : V).

Lemma dict_get_set_same d k v : dict_get k (dict_set k v d) = Some v.
Proof.
  induction d as [|[k' v'] d IH]; simpl.
  - now rewrite String.eqb_refl.
  - destruct (String.eqb_spec k k') as [->|Hne]; simpl.
    + now rewrite String.eqb_refl.
    + destruct (String.eqb_spec k k'); [contradiction|exact IH].
Qed.

Lemma dict_get_set_other d k k' v :
  k <> k' -> dict_get k (dict_set k' v d) = dict_get k d.
Proof.
  intros Hne.
  induction d as [|[k0 v0] d IH]; simpl.
  - destruct (String.eqb_spec k k'); [contradiction|reflexivity].
  - destruct (String.eqb_spec k' k0) as [->|Hne0]; simpl.
    + destruct (String.eqb_spec k k0); [contradiction|reflexivity].
    + destruct (String.eqb_spec k k0); [reflexivity|exact IH].
Qed.

Lemma dict_get_None_keys d k : dict_get k d = None <-> ~ In k (keys d).
Proof.
  induction d as [|[k' v'] d IH]; simpl.
  - tauto.
  - destruct (String.eqb_spec k k') as [->|Hne].
    + split; [discriminate|intros H; exfalso; apply H; now left].
    + rewrite IH. split; intros H.
      * intros [Heq|Hin]; [congruence|contradiction].
      * intros Hin. apply H. now right.
Qed.

Lemma dict_mem_keys d k : dict_mem k d = true <-> In k (keys d).
Proof.
  unfold dict_mem.
  destruct (dict_get k d) eqn:E.
  - split; [intros _|reflexivity].
    destruct (in_dec string_dec k (keys d)) as [Hin|Hnin]; [exact Hin|].
    apply dict_get_None_keys in Hnin. congruence.
  - split; [discriminate|].
    intros Hin. apply dict_get_None_keys in E. contradiction.
Qed.

Lemma dict_get_In d k v : dict_get k d = Some v -> In (k, v) d.
Proof.
  induction d as [|[k' v'] d IH]; simpl; [discriminate|].
  destruct (String.eqb_spec k k') as [->|Hne].
  - intros [= ->]. now left.
  - intros H. right. now apply IH.
Qed.

Lemma In_dict_get d k v : dict_wf d -> In (k, v) d -> dict_get k d = Some v.
Proof.
  unfold dict_wf.
  induction d as [|[k' v'] d IH]; simpl; [contradiction|].
  intros Hnd [Heq|Hin].
  - inversion Heq; subst. now rewrite String.eqb_refl.
  - inversion Hnd as [|? ? Hnin Hnd']; subst.
    destruct (String.eqb_spec k k') as [->|Hne].
    + exfalso. apply Hnin. change k' with (fst (k', v)). now apply in_map.
    + now apply IH.
Qed.

(** A store at a new key appends the binding. *)
Lemma dict_set_fresh d k v : ~ In k (keys d) -> dict_set k v d = d ++ [(k, v)].
Proof.
  induction d as [|[k' v'] d IH]; simpl; [reflexivity|].
  intros Hnin.
  destruct (String.eqb_spec k k') as [->|Hne].
  - exfalso. apply Hnin. now left.
  - f_equal. apply IH. intros Hin. apply Hnin. now right.
Qed.

(** A store at a present key keeps the keys. *)
Lemma keys_dict_set_present d k v : In k (keys d) -> keys (dict_set k v d) = keys d.
Proof.
  induction d as [|[k' v'] d IH]; simpl; [contradiction|].
  intros Hin.
  destruct (String.eqb_spec k k') as [->|Hne]; simpl; [reflexivity|].
  f_equal. apply IH. destruct Hin as [Heq|Hin]; [congruence|exact Hin].
Qed.

Lemma keys_dict_set d k v k0 :
  In k0 (keys (dict_set k v d)) <-> k0 = k \/ In k0 (keys d).
Proof.
  destruct (in_dec string_dec k (keys d)) as [Hin|Hnin].
  - rewrite keys_dict_set_present by exact Hin.
    split; [tauto|]. intros [->|H]; assumption.
  - rewrite dict_set_fresh by exact Hnin.
    unfold keys. rewrite map_app, in_app_iff. simpl. split.
    + intros [H|[H|[]]]; [now right|now left].
    + intros [->|H]; [right; now left|now left].
Qed.

Lemma dict_wf_nil : dict_wf (@nil (string * V)).
Proof. constructor. Qed.

Lemma dict_wf_set d k v : dict_wf d -> dict_wf (dict_set k v d).
Proof.
  unfold dict_wf. intros Hnd.
  destruct (in_dec string_dec k (keys d)) as [Hin|Hnin].
  - now rewrite keys_dict_set_present.
  - rewrite dict_set_fresh by exact Hnin.
    unfold keys in *. rewrite map_app. simpl.
    apply NoDup_app; [exact Hnd|repeat constructor; simpl; tauto|].
    intros x Hx [<-|[]]. contradiction.
Qed.
End DictFacts.

(** ** Overall confidence *)

Lemma count_at_cons c k e er :
  count_at c ((k, e) :: er) =
  (if (Enhanced.confidence e =? c)%string then 1 else 0) + count_at c er.
Proof.
  unfold count_at. simpl.
  destruct (Enhanced.confidence e =? c)%string; simpl List.length; lia.
Qed.

Lemma count_at_nonneg c er : 0 <= count_at c er.
Proof. unfold count_at. lia. Qed.

(** High and Medium entries are distinct entries. *)
Lemma count_at_high_medium er :
  count_at "High" er + count_at "Medium" er <= Z.of_nat (List.length er).
Proof.
  induction er as [|[k e] er IH]; [reflexivity|].
  rewrite !count_at_cons. simpl List.length. rewrite Nat2Z.inj_succ.
  destruct (String.eqb_spec (Enhanced.confidence e) "High") as [->|].
  - change ("High" =? "Medium")%string with false. cbv iota. lia.
  - destruct (Enhanced.confidence e =? "Medium")%string; lia.
Qed.

(** One round of the counting loop. *)
Lemma count_confidence_step e h m l :
  count_confidence [("High", h); ("Medium", m); ("Low", l)] e =
  [("High", h + (if (Enhanced.confidence e =? "High")%string then 1 else 0));
   ("Medium", m + (if (Enhanced.confidence e =? "Medium")%string then 1 else 0));
   ("Low", l + (if (Enhanced.confidence e =? "Low")%string then 1 else 0))].
Proof.
  unfold count_confidence. cbn [dict_get].
  destruct (String.eqb_spec (Enhanced.confidence e) "High") as [->|H1].
  { cbn -[Z.add]. now rewrite !Z.add_0_r. }
  destruct (String.eqb_spec (Enhanced.confidence e) "Medium") as [->|H2].
  { cbn -[Z.add]. now rewrite !Z.add_0_r. }
  destruct (String.eqb_spec (Enhanced.confidence e) "Low") as [->|H3].
  { cbn -[Z.add]. now rewrite !Z.add_0_r. }
  now rewrite !Z.add_0_r.
Qed.

(** The loop of [calculate_overall_confidence] counts each tier. *)
Lemma fold_count_confidence er : forall h m l,
  fold_left count_confidence (map snd er)
            [("High", h); ("Medium", m); ("Low", l)] =
  [("High", h + count_at "High" er); ("Medium", m + count_at "Medium" er);
   ("Low", l + count_at "Low" er)].
Proof.
  induction er as [|[k e] er IH]; intros h m l.
  - cbn [map fold_left]. unfold count_at. cbn [filter List.length Z.of_nat].
    now rewrite !Z.add_0_r.
  - rewrite !count_at_cons. cbn [map fold_left snd].
    rewrite count_confidence_step, IH. now rewrite !Z.add_assoc.
Qed.

Lemma calculate_overall_confidence_policy er :
  calculate_overall_confidence er =
  match er with
  | [] => "Low"
  | _ :: _ =>
      let total := Z.of_nat (List.length er) in
      policy (true_div (count_at "High" er) total)
             (true_div (count_at "Medium" er) total)
  end.
Proof.
  destruct er as [|item er]; [reflexivity|].
  unfold calculate_overall_confidence.
  rewrite fold_count_confidence. reflexivity.
Qed.

Lemma agrees_upto_spec (n t h m : nat) :
  agrees_upto n = true -> (1 <= t <= n)%nat -> (h + m <= t)%nat ->
  agrees_at t h m = true.
Proof.
  unfold agrees_upto. intros A Ht Hsum.
  rewrite forallb_forall in A.
  assert (It : In t (seq 1 n)) by (apply in_seq; lia).
  specialize (A _ It). rewrite forallb_forall in A.
  assert (Ih : In h (seq 0 (S t))) by (apply in_seq; lia).
  specialize (A _ Ih). rewrite forallb_forall in A.
  apply A. apply in_seq. lia.
Qed.

(** On records of up to 40 fields the rounding of the two divisions and
    of the sum does not change the decision: checked on every triple. *)
Lemma agrees_upto_40 : agrees_upto 40 = true.
Proof. vm_compute. reflexivity. Qed.

Lemma policy_exact_small (h m t : Z) :
  0 <= h -> 0 <= m -> h + m <= t -> 1 <= t <= 40 ->
  policy (true_div h t) (true_div m t) = exact_policy h m t.
Proof.
  intros Hh Hm Hsum Ht.
  assert (A : agrees_at (Z.to_nat t) (Z.to_nat h) (Z.to_nat m) = true)
    by (apply (agrees_upto_spec 40); [exact agrees_upto_40|lia|lia]).
  unfold agrees_at in A.
  rewrite !Z2Nat.id in A by lia.
  now apply String.eqb_eq.
Qed.

Lemma length_confidences er : List.length (confidences er) = List.length er.
Proof. apply length_map. Qed.

(** The overall confidence is a function of the entries' confidences. *)
Lemma calculate_overall_confidence_confidences er :
  calculate_overall_confidence er =
  match confidences er with
  | [] => "Low"
  | cs =>
      let tally c :=
        Z.of_nat (List.length (filter (fun x => (x =? c)%string) cs)) in
      policy (true_div (tally "High") (Z.of_nat (List.length cs)))
             (true_div (tally "Medium") (Z.of_nat (List.length cs)))
  end.
Proof.
  rewrite calculate_overall_confidence_policy.
  destruct er as [|item er]; [reflexivity|].
  unfold count_at. rewrite <- (length_confidences (item :: er)).
  destruct (confidences (item :: er)) eqn:E; [discriminate|reflexivity].
Qed.

(** C1. [calculate_overall_confidence] returns Low for an empty mapping;
    otherwise, with [high_fraction = count(High)/total] and
    [medium_fraction = count(Medium)/total] over all entries (the two
    divisions and the sum in double precision, as the source computes
    them), it returns High when [high_fraction >= 0.7], else Medium when
    [high_fraction + medium_fraction >= 0.6], else Low.  On mappings of up
    to 40 entries the decision is the one on the exact fractions.  In
    particular [High, High, High, High, Low] gives High,
    [High, Medium, Medium, Low, Low] gives Medium and [Low, Low, Low] gives
    Low. *)
Theorem C1_overall_confidence_policy :
  calculate_overall_confidence [] = "Low"
  /\ (forall er, er <> [] ->
        let total := Z.of_nat (List.length er) in
        let high_fraction := true_div (count_at "High" er) total in
        let medium_fraction := true_div (count_at "Medium" er) total in
        calculate_overall_confidence er =
          if float_ge high_fraction lit_0_7 then "High"
          else if float_ge (float_add high_fraction medium_fraction) lit_0_6
               then "Medium"
          else "Low")
  /\ (forall er, er <> [] -> (List.length er <= 40)%nat ->
        let total := Z.of_nat (List.length er) in
        calculate_overall_confidence er =
          if 7 * total <=? 10 * count_at "High" er then "High"
          else if 6 * total <=? 10 * (count_at "High" er + count_at "Medium" er)
               then "Medium"
          else "Low")
  /\ (forall er, confidences er = ["High"; "High"; "High"; "High"; "Low"] ->
        calculate_overall_confidence er = "High")
  /\ (forall er, confidences er = ["High"; "Medium"; "Medium"; "Low"; "Low"] ->
        calculate_overall_confidence er = "Medium")
  /\ (forall er, confidences er = ["Low"; "Low"; "Low"] ->
        calculate_overall_confidence er = "Low").
Proof.
  split; [reflexivity|].
  split.
  { intros er Hne. rewrite calculate_overall_confidence_policy.
    destruct er; [contradiction|reflexivity]. }
  split.
  { intros er Hne Hlen. rewrite calculate_overall_confidence_policy.
    destruct er as [|item er]; [contradiction|].
    cbv zeta. rewrite policy_exact_small.
    - reflexivity.
    - apply count_at_nonneg.
    - apply count_at_nonneg.
    - apply count_at_high_medium.
    - simpl List.length in *. lia. }
  repeat split; intros er H;
    rewrite calculate_overall_confidence_confidences, H;
    vm_compute; reflexivity.
Qed.

Lemma C1_overall_confidence_policy_witness :
  let e c := Enhanced.mk (PStr "x") c [] true None in
  let er := [("a", e "High"); ("b", e "Medium"); ("c", e "Medium");
             ("d", e "Low"); ("e", e "Low")] in
  er <> [] /\ (List.length er <= 40)%nat
  /\ confidences er = ["High"; "Medium"; "Medium"; "Low"; "Low"]
  /\ calculate_overall_confidence er = "Medium".
Proof.
  intros e er.
  assert (H : confidences er = ["High"; "Medium"; "Medium"; "Low"; "Low"])
    by reflexivity.
  split; [discriminate|].
  split; [simpl; lia|].
  split; [exact H|].
  exact (proj1 (proj2 (proj2 (proj2 (proj2 C1_overall_confidence_policy)))) er H).
Defined.

(** ** Type validation *)

Section TypeValidation.
Variable float_of_str : string -> float_parse.

(** The loop over the formats stops at the first one that parses. *)
Lemma try_date_formats_find s fmts :
  try_date_formats s fmts =
  match find (fun fmt => match Strptime.strptime s fmt with
                         | Some _ => true
                         | None => false
                         end) fmts with
  | Some fmt => (true, ("Valid date (format: " ++ fmt ++ ")")%string)
  | None => (false, "Date format not recognized")
  end.
Proof.
  induction fmts as [|fmt fmts IH]; simpl; [reflexivity|].
  destruct (Strptime.strptime s fmt); [reflexivity|exact IH].
Qed.

Lemma validate_field_type_date_str ft s :
  lower ft = "date" ->
  validate_field_type float_of_str (PStr s) ft = Ok (try_date_formats s date_formats).
Proof.
  intros E. unfold validate_field_type. rewrite E. reflexivity.
Qed.

Lemma validate_field_type_date_other ft v :
  lower ft = "date" -> is_str v = false ->
  exists reason, validate_field_type float_of_str v ft = Ok (false, reason).
Proof.
  intros E Hv. unfold validate_field_type. rewrite E.
  destruct v; try discriminate Hv; eexists; reflexivity.
Qed.
End TypeValidation.

(** C2. For a string value and field type date, [validate_field_type]
    tries the formats YYYY-MM-DD, MM/DD/YYYY, DD/MM/YYYY,
    YYYY-MM-DDTHH:MM:SS, YYYY-MM-DD HH:MM:SS in that order and the first
    that parses wins.  "01/02/2023" is valid and matched by MM/DD/YYYY, as
    January 2nd (DD/MM/YYYY would have parsed it too); "2023-01-01" is
    valid; "13/45/2023" matches none and is invalid with "Date format not
    recognized"; a value that is not a string is invalid. *)
Theorem C2_date_formats_first_match_wins :
  date_formats =
    ["%Y-%m-%d"; "%m/%d/%Y"; "%d/%m/%Y"; "%Y-%m-%dT%H:%M:%S"; "%Y-%m-%d %H:%M:%S"]
  /\ (forall float_of_str ft s, lower ft = "date" ->
        validate_field_type float_of_str (PStr s) ft =
        Ok match find (fun fmt => match Strptime.strptime s fmt with
                                  | Some _ => true
                                  | None => false
                                  end) date_formats with
           | Some fmt => (true, ("Valid date (format: " ++ fmt ++ ")")%string)
           | None => (false, "Date format not recognized")
           end)
  /\ (forall float_of_str,
        validate_field_type float_of_str (PStr "01/02/2023") "date" =
        Ok (true, "Valid date (format: %m/%d/%Y)"))
  /\ Strptime.strptime "01/02/2023" "%m/%d/%Y" =
       Some (Strptime.mk_fields 2023 1 2 0 0 0)
  /\ Strptime.strptime "01/02/2023" "%d/%m/%Y" =
       Some (Strptime.mk_fields 2023 2 1 0 0 0)
  /\ (forall float_of_str,
        validate_field_type float_of_str (PStr "2023-01-01") "date" =
        Ok (true, "Valid date (format: %Y-%m-%d)"))
  /\ (forall float_of_str,
        validate_field_type float_of_str (PStr "13/45/2023") "date" =
        Ok (false, "Date format not recognized"))
  /\ (forall float_of_str ft v, lower ft = "date" -> is_str v = false ->
        exists reason,
          validate_field_type float_of_str v ft = Ok (false, reason)).
Proof.
  split; [reflexivity|].
  split.
  { intros fos ft s E.
    rewrite validate_field_type_date_str by exact E.
    now rewrite try_date_formats_find. }
  split; [intros; vm_compute; reflexivity|].
  split; [vm_compute; reflexivity|].
  split; [vm_compute; reflexivity|].
  split; [intros; vm_compute; reflexivity|].
  split; [intros; vm_compute; reflexivity|].
  intros fos ft v E Hv.
  now apply validate_field_type_date_other.
Qed.

Lemma C2_date_formats_first_match_wins_witness :
  lower "Date" = "date"
  /\ is_str (PInt 20230101) = false
  /\ validate_field_type Sample.float_of_str (PStr "31/12/2023") "Date" =
       Ok (true, "Valid date (format: %d/%m/%Y)")
  /\ exists reason,
       validate_field_type Sample.float_of_str (PInt 20230101) "Date" =
       Ok (false, reason).
Proof.
  split; [reflexivity|].
  split; [reflexivity|].
  split.
  - rewrite (proj1 (proj2 C2_date_formats_first_match_wins)
               Sample.float_of_str "Date" "31/12/2023" eq_refl).
    vm_compute. reflexivity.
  - exact (proj2 (proj2 (proj2 (proj2 (proj2 (proj2 (proj2
             C2_date_formats_first_match_wins))))))
             Sample.float_of_str "Date" (PInt 20230101) eq_refl eq_refl).
Defined.

(** ** Template validation *)

Section TemplateValidation.
Variable float_of_str : string -> float_parse.
Variable float_repr : pyfloat -> string.
Variable re_match : string -> string -> Exc bool.

Let validate := validate_against_template float_of_str float_repr re_match.

(** The two returns on an empty value, before any other check. *)
Lemma validate_empty name value tpl fd :
  dict_get name (template_fields tpl) = Some fd ->
  is_empty value = true ->
  validate name value tpl =
  Ok (if required fd
      then Validation.mk false "Low" ["Required field is missing or empty"] PNone
      else Validation.mk true "High" ["Optional field is empty"] PNone).
Proof.
  intros Hfd Hempty. unfold validate, validate_against_template.
  rewrite Hfd, Hempty.
  destruct (required fd); reflexivity.
Qed.



End TemplateValidation.



(** C5. For a field present in the template whose value is null or the
    empty string, [validate_against_template] returns invalid, Low,
    "Required field is missing or empty" when the field is marked required
    and valid, High, "Optional field is empty" when it is not; the result
    holds nothing else, whatever the field's type and constraints: no type
    or constraint check runs. *)
Theorem C5_empty_value :
  forall float_of_str float_repr re_match name value tpl fd,
    dict_get name (template_fields tpl) = Some fd ->
    value = PNone \/ value = PStr "" ->
    validate_against_template float_of_str float_repr re_match name value tpl =
    Ok (if truthy (get_or (fd_required fd) (PBool false))
        then Validation.mk false "Low" ["Required field is missing or empty"] PNone
        else Validation.mk true "High" ["Optional field is empty"] PNone).
Proof.
  intros fos fr rm name value tpl fd Hfd Hv.
  apply validate_empty; [exact Hfd|].
  destruct Hv as [-> | ->]; reflexivity.
Qed.

Lemma C5_empty_value_witness :
  let fd := mk_field_def (Some "number") (Some (PBool true)) None
                         (Some (PStr "not a number")) None None None None in
  let tpl := mk_template (Some [("total", fd)]) in
  dict_get "total" (template_fields tpl) = Some fd
  /\ validate_against_template Sample.float_of_str Sample.float_repr
       Sample.re_match "total" (PStr "") tpl =
     Ok (Validation.mk false "Low" ["Required field is missing or empty"] PNone).
Proof.
  intros fd tpl.
  split; [reflexivity|].
  exact (C5_empty_value Sample.float_of_str Sample.float_repr Sample.re_match
           "total" (PStr "") tpl fd eq_refl (or_intror eq_refl)).
Defined.

(** ** The invariant of validation results *)

Section ValidationInvariant.
Variable float_of_str : string -> float_parse.
Variable float_repr : pyfloat -> string.
Variable re_match : string -> string -> Exc bool.

Import Validation.

Lemma validation_inv_invalid_low r :
  is_valid r = false -> confidence r = "Low" -> validation_inv r.
Proof.
  intros Hv Hc. unfold validation_inv, is_tier. rewrite Hv, Hc.
  split; [auto|]. split; [discriminate|]. intros _. split; reflexivity.
Qed.

Lemma validation_inv_no_correction r :
  is_tier (confidence r) -> (is_valid r = true -> confidence r = "High") ->
  suggested_correction r = PNone -> validation_inv r.
Proof.
  intros Ht Hv Hs. unfold validation_inv. rewrite Hs.
  split; [exact Ht|]. split; [exact Hv|].
  intros Hne. now contradiction Hne.
Qed.

Lemma check_enum_inv value fd result r :
  is_valid result = false ->
  check_enum float_repr value fd result = Ok (Some r) -> validation_inv r.
Proof.
  unfold check_enum. intros Hv H.
  destruct (negb _); [|discriminate H].
  injection H as <-. apply validation_inv_invalid_low; [exact Hv|reflexivity].
Qed.

Lemma check_number_inv value fd result r :
  is_valid result = false ->
  check_number float_of_str float_repr value fd result = Ok (Some r) ->
  validation_inv r.
Proof.
  unfold check_number. intros Hv H.
  destruct (py_float float_of_str value) as [num_value|]; [|discriminate H].
  cbn [bind] in H.
  destruct (below (NFloat num_value) (fd_min fd)) as [[|]|]; cbn [bind] in H;
    try discriminate H.
  - injection H as <-. apply validation_inv_invalid_low; [exact Hv|reflexivity].
  - destruct (above (NFloat num_value) (fd_max fd)) as [[|]|]; cbn [bind] in H;
      try discriminate H.
    injection H as <-. apply validation_inv_invalid_low; [exact Hv|reflexivity].
Qed.

Lemma check_string_inv value fd result r :
  is_valid result = false -> suggested_correction result = PNone ->
  check_string float_repr re_match value fd result = Ok (Some r) ->
  validation_inv r.
Proof.
  unfold check_string. intros Hv Hs H.
  assert (Medium : forall msg,
    validation_inv (set_confidence "Medium" (append_reasoning msg result))).
  { intros msg. apply validation_inv_no_correction.
    - right. left. reflexivity.
    - cbn. rewrite Hv. discriminate.
    - exact Hs. }
  destruct (below _ (fd_min_length fd)) as [[|]|]; cbn [bind] in H;
    try discriminate H.
  { injection H as <-. apply Medium. }
  destruct (above _ (fd_max_length fd)) as [[|]|]; cbn [bind] in H;
    try discriminate H.
  { injection H as <-. apply Medium. }
  destruct (pattern_fails re_match (fd_pattern fd) _) as [[|]|]; cbn [bind] in H;
    try discriminate H.
  injection H as <-. apply Medium.
Qed.

Lemma additional_validations_inv ft value fd result r :
  is_valid result = false -> suggested_correction result = PNone ->
  additional_validations float_of_str float_repr re_match ft value fd result
    = Ok (Some r) ->
  validation_inv r.
Proof.
  unfold additional_validations. intros Hv Hs H.
  destruct (lower ft =? "enum")%string; [now apply check_enum_inv in H|].
  destruct (lower ft =? "number")%string; [now apply check_number_inv in H|].
  destruct (lower ft =? "string")%string; [now apply check_string_inv in H|].
  discriminate H.
Qed.

Lemma validate_against_template_inv name value tpl r :
  validate_against_template float_of_str float_repr re_match name value tpl
    = Ok r ->
  validation_inv r.
Proof.
  unfold validate_against_template. intros H.
  destruct (dict_get name (template_fields tpl)) as [fd|].
  2:{ injection H as <-. now apply validation_inv_invalid_low. }
  destruct (required fd && is_empty value).
  { injection H as <-. now apply validation_inv_invalid_low. }
  destruct (is_empty value).
  { injection H as <-. apply validation_inv_no_correction; cbn; auto.
    left. reflexivity. }
  destruct (validate_field_type float_of_str value _) as [[ok reason]|];
    [|discriminate H].
  cbn [bind] in H. destruct ok; cbn [negb] in H.
  2:{ injection H as <-. now apply validation_inv_invalid_low. }
  destruct (additional_validations _ _ _ _ _ _ _) as [[early|]|] eqn:E;
    cbn [bind] in H; try discriminate H; injection H as <-.
  - now apply additional_validations_inv in E.
  - apply validation_inv_no_correction; cbn; auto. left. reflexivity.
Qed.

Lemma enhanced_of_inv value r :
  validation_inv r -> enhanced_inv (enhanced_of value r).
Proof.
  intros (Ht & Hv & Hs). unfold enhanced_inv, enhanced_of. cbn.
  split; [exact Ht|]. split; [exact Hv|].
  destruct (is_none (suggested_correction r)) eqn:E.
  - intros Hne. now contradiction Hne.
  - intros _. apply Hs. intros E'. rewrite E' in E. discriminate E.
Qed.

Lemma missing_required_inv : enhanced_inv missing_required.
Proof.
  unfold enhanced_inv, missing_required, is_tier. cbn.
  split; [auto|]. split; [discriminate|].
  intros Hne. now contradiction Hne.
Qed.
End ValidationInvariant.

(** ** The two loops of the aggregator *)

Lemma dict_set_Forall {V : Type} (P : string * V -> Prop) d k v :
  Forall P d -> P (k, v) -> Forall P (dict_set k v d).
Proof.
  intros Hd Hv.
  induction d as [|[k' v'] d IH]; simpl.
  - constructor; [exact Hv|constructor].
  - inversion Hd as [|? ? Hhd Htl]; subst.
    destruct (String.eqb_spec k k') as [->|Hne]; constructor; auto.
Qed.

Lemma keys_values_of er : keys (values_of er) = keys er.
Proof.
  unfold keys, values_of. rewrite map_map. reflexivity.
Qed.

Lemma dict_get_values_of er name :
  dict_get name (values_of er) = option_map Enhanced.value (dict_get name er).
Proof.
  induction er as [|[k e] er IH]; simpl; [reflexivity|].
  destruct (name =? k)%string; [reflexivity|exact IH].
Qed.

Lemma marked_required_In name fs :
  marked_required name fs = true <->
  exists fd, In (name, fd) fs /\ required fd = true.
Proof.
  unfold marked_required. rewrite existsb_exists. split.
  - intros [[k fd] [Hin Hb]]. apply andb_prop in Hb as [Hk Hr].
    apply String.eqb_eq in Hk. simpl in Hk, Hr. subst k. now exists fd.
  - intros [fd [Hin Hr]]. exists (name, fd). split; [exact Hin|].
    simpl. now rewrite String.eqb_refl, Hr.
Qed.

(** The sweep keeps every entry and adds the synthesized one at each
    required name that has none. *)
Lemma dict_get_sweep_required fs : forall acc name,
  dict_get name (sweep_required fs acc) =
  match dict_get name acc with
  | Some e => Some e
  | None => if marked_required name fs then Some missing_required else None
  end.
Proof.
  induction fs as [|[k fd] fs IH]; intros acc name.
  - simpl. now destruct (dict_get name acc).
  - cbn [sweep_required]. unfold marked_required. cbn [existsb fst snd].
    fold (marked_required name fs).
    destruct (required fd && negb (dict_mem k acc)) eqn:C; rewrite IH.
    + apply andb_prop in C as [Hr Hm]. rewrite Hr.
      apply negb_true_iff in Hm. unfold dict_mem in Hm.
      destruct (String.eqb_spec k name) as [->|Hne].
      * rewrite dict_get_set_same.
        destruct (dict_get name acc); [discriminate Hm|reflexivity].
      * rewrite dict_get_set_other by congruence.
        destruct (dict_get name acc); reflexivity.
    + destruct (dict_get name acc) eqn:G; [reflexivity|].
      destruct (String.eqb_spec k name) as [->|Hne]; [|reflexivity].
      unfold dict_mem in C. rewrite G in C. cbn [negb] in C.
      rewrite andb_true_r in C. now rewrite C.
Qed.

Lemma dict_wf_sweep_required fs : forall acc,
  dict_wf acc -> dict_wf (sweep_required fs acc).
Proof.
  induction fs as [|[k fd] fs IH]; intros acc Hwf; [exact Hwf|].
  cbn [sweep_required].
  destruct (required fd && negb (dict_mem k acc)); apply IH;
    [now apply dict_wf_set|exact Hwf].
Qed.

Lemma sweep_required_Forall (P : string * Enhanced.t -> Prop) fs :
  (forall name, P (name, missing_required)) ->
  forall acc, Forall P acc -> Forall P (sweep_required fs acc).
Proof.
  intros Hm.
  induction fs as [|[k fd] fs IH]; intros acc Hacc; [exact Hacc|].
  cbn [sweep_required].
  destruct (required fd && negb (dict_mem k acc)); apply IH;
    [now apply dict_set_Forall|exact Hacc].
Qed.

Section ProcessFields.
Variable float_of_str : string -> float_parse.
Variable float_repr : pyfloat -> string.
Variable re_match : string -> string -> Exc bool.
Variable tpl : template.

Let validate := validate_against_template float_of_str float_repr re_match.
Let process := process_fields float_of_str float_repr re_match.

Lemma process_fields_Forall (P : string * Enhanced.t -> Prop) items :
  (forall name value r,
     startswith "_" name = false -> validate name value tpl = Ok r ->
     P (name, enhanced_of value r)) ->
  forall acc res,
    Forall P acc -> process items tpl acc = Ok res -> Forall P res.
Proof.
  intros HP.
  induction items as [|[k v] items IH]; intros acc res Hacc H.
  - injection H as <-. exact Hacc.
  - unfold process in H. cbn [process_fields] in H.
    destruct (startswith "_" k) eqn:U; [now apply (IH acc)|].
    fold validate in H.
    destruct (validate k v tpl) as [r|] eqn:V; [|discriminate H].
    cbn [bind] in H. apply (IH _ _ (dict_set_Forall P acc k _ Hacc (HP k v r U V)) H).
Qed.
(** The first loop stores the fields of the data that do not start with
    an underscore, and only those. *)
Lemma process_fields_keys items : forall acc res,
  process items tpl acc = Ok res ->
  forall name,
    In name (keys res) <->
    In name (keys acc) \/ (In name (keys items) /\ startswith "_" name = false).
Proof.
  induction items as [|[k v] items IH]; intros acc res H name.
  - injection H as <-. simpl. tauto.
  - unfold process in H. cbn [process_fields] in H.
    destruct (startswith "_" k) eqn:U.
    + rewrite (IH _ _ H name). simpl. split; [tauto|].
      intros [Ha|[[Hk|Hi] Hu]]; auto. subst k. congruence.
    + destruct (validate_against_template _ _ _ k v tpl) as [r|];
        [|discriminate H].
      cbn [bind] in H. rewrite (IH _ _ H name), keys_dict_set. simpl.
      split.
      * intros [[->|Ha]|[Hi Hu]]; auto.
      * intros [Ha|[[Hk|Hi] Hu]]; auto.
Qed.

Lemma dict_wf_process_fields items : forall acc res,
  dict_wf acc -> process items tpl acc = Ok res -> dict_wf res.
Proof.
  induction items as [|[k v] items IH]; intros acc res Hwf H.
  - injection H as <-. exact Hwf.
  - unfold process in H. cbn [process_fields] in H.
    destruct (startswith "_" k); [now apply (IH acc)|].
    destruct (validate_against_template _ _ _ k v tpl) as [r|];
      [|discriminate H].
    cbn [bind] in H. apply (IH _ _ (dict_wf_set _ _ _ Hwf) H).
Qed.

(** The first loop returns when every field it validates does. *)
Lemma process_fields_returns items :
  (forall name value, In (name, value) items -> startswith "_" name = false ->
     exists r, validate name value tpl = Ok r) ->
  forall acc, exists res, process items tpl acc = Ok res.
Proof.
  induction items as [|[k v] items IH]; intros Hall acc.
  - now exists acc.
  - unfold process. cbn [process_fields].
    assert (Hrest : forall name value, In (name, value) items ->
              startswith "_" name = false ->
              exists r, validate name value tpl = Ok r).
    { intros n x Hin. apply Hall. now right. }
    destruct (startswith "_" k) eqn:U; [apply (IH Hrest)|].
    destruct (Hall k v (or_introl eq_refl) U) as [r Hr].
    unfold validate in Hr. rewrite Hr. cbn [bind]. apply (IH Hrest).
Qed.

(** On data with one binding per name, what the first loop leaves at a
    name. *)
Lemma dict_get_process_fields items : forall acc res,
  dict_wf items -> process items tpl acc = Ok res ->
  forall name,
    dict_get name res =
    match dict_get name items with
    | Some value =>
        if startswith "_" name then dict_get name acc
        else entry_for float_of_str float_repr re_match name value tpl
    | None => dict_get name acc
    end.
Proof.
  induction items as [|[k v] items IH]; intros acc res Hwf H name.
  - injection H as <-. reflexivity.
  - unfold dict_wf in Hwf. simpl in Hwf.
    inversion Hwf as [|? ? Hnin Hwf']; subst.
    unfold process in H. cbn [process_fields] in H. cbn [dict_get].
    destruct (startswith "_" k) eqn:U.
    + rewrite (IH _ _ Hwf' H name).
      destruct (String.eqb_spec name k) as [->|Hne]; [|reflexivity].
      apply dict_get_None_keys in Hnin. now rewrite Hnin, U.
    + unfold entry_for.
      destruct (validate_against_template _ _ _ k v tpl) as [r|] eqn:V;
        [|discriminate H].
      cbn [bind] in H. rewrite (IH _ _ Hwf' H name).
      destruct (String.eqb_spec name k) as [->|Hne].
      * apply dict_get_None_keys in Hnin.
        now rewrite Hnin, U, V, dict_get_set_same.
      * rewrite dict_get_set_other by exact Hne.
        destruct (dict_get name items); reflexivity.
Qed.
End ProcessFields.

(** ** The aggregator *)

Section Aggregator.
Variable float_of_str : string -> float_parse.
Variable float_repr : pyfloat -> string.
Variable re_match : string -> string -> Exc bool.

Let validate := validate_against_template float_of_str float_repr re_match.
Let process := process_fields float_of_str float_repr re_match.
Let enhance := enhance_confidence_with_template float_of_str float_repr re_match.

(** The output is the first loop's result swept over the template's
    fields. *)
Lemma enhance_inv data tpl out :
  enhance data tpl = Ok out <->
  exists processed,
    process data tpl [] = Ok processed
    /\ out = sweep_required (template_fields tpl) processed.
Proof.
  unfold enhance, enhance_confidence_with_template, template_fields.
  fold process. split.
  - intros H. destruct (process data tpl []) as [processed|]; [|discriminate H].
    exists processed. split; [reflexivity|].
    cbn [bind] in H. destruct (fields tpl); simpl; congruence.
  - intros [processed [-> ->]]. cbn [bind].
    destruct (fields tpl); reflexivity.
Qed.

Lemma process_fields_consistent data tpl processed :
  process data tpl [] = Ok processed ->
  Forall (consistent float_of_str float_repr re_match tpl) processed.
Proof.
  apply process_fields_Forall; [|constructor].
  intros name value r U V. split; [exact U|].
  unfold entry_for. cbn [fst snd enhanced_of Enhanced.value].
  now rewrite V.
Qed.

Lemma dict_wf_enhance data tpl out : enhance data tpl = Ok out -> dict_wf out.
Proof.
  intros H. apply enhance_inv in H as [processed [Hp ->]].
  apply dict_wf_sweep_required.
  apply (dict_wf_process_fields _ _ _ _ _ _ _ dict_wf_nil Hp).
Qed.

(** What the output holds at a name. *)
Lemma dict_get_enhance data tpl out processed name :
  process data tpl [] = Ok processed ->
  out = sweep_required (template_fields tpl) processed ->
  dict_get name out =
  match dict_get name processed with
  | Some e => Some e
  | None => if marked_required name (template_fields tpl)
            then Some missing_required else None
  end.
Proof.
  intros _ ->. apply dict_get_sweep_required.
Qed.

(** A required field of a well-formed template validates an absent value
    to the invalid, Low result. *)
Lemma validate_marked_required tpl name :
  dict_wf (template_fields tpl) ->
  marked_required name (template_fields tpl) = true ->
  validate name PNone tpl =
  Ok (Validation.mk false "Low" ["Required field is missing or empty"] PNone).
Proof.
  intros Hwf Hm. apply marked_required_In in Hm as [fd [Hin Hr]].
  unfold validate.
  rewrite (validate_empty _ _ _ name PNone tpl fd (In_dict_get _ _ _ Hwf Hin) eq_refl).
  now rewrite Hr.
Qed.

Lemma enhance_idempotent data tpl out :
  dict_wf (template_fields tpl) ->
  enhance data tpl = Ok out ->
  exists out2,
    enhance (values_of out) tpl = Ok out2
    /\ forall name,
         option_map verdict (dict_get name out2) =
         option_map verdict (dict_get name out).
Proof.
  intros Hwf H.
  pose proof (dict_wf_enhance _ _ _ H) as Hwf_out.
  apply enhance_inv in H as [processed [Hp Hout]].
  pose proof (process_fields_consistent _ _ _ Hp) as Hcons.
  rewrite Forall_forall in Hcons.
  pose proof (fun name => dict_get_enhance _ _ _ _ name Hp Hout) as Hget.
  (* the second pass validates every field it does not skip *)
  destruct (process_fields_returns float_of_str float_repr re_match tpl
              (values_of out)) with (acc := @nil (string * Enhanced.t))
    as [processed2 Hp2].
  { intros name value Hin U.
    unfold values_of in Hin. apply in_map_iff in Hin as [[k e] [Heq Hin]].
    cbn [fst snd] in Heq. injection Heq as -> <-.
    apply (In_dict_get _ _ _ Hwf_out) in Hin. rewrite Hget in Hin.
    destruct (dict_get name processed) as [e'|] eqn:G.
    - injection Hin as ->. apply dict_get_In in G.
      destruct (Hcons _ G) as [_ Hentry]. cbn [fst snd] in Hentry.
      unfold entry_for in Hentry.
      destruct (validate_against_template _ _ _ name (Enhanced.value e) tpl)
        as [r|]; [now exists r|discriminate Hentry].
    - destruct (marked_required name (template_fields tpl)) eqn:M;
        [|discriminate Hin].
      injection Hin as <-. cbn [Enhanced.value missing_required].
      eexists. now apply validate_marked_required. }
  exists (sweep_required (template_fields tpl) processed2).
  split; [apply enhance_inv; now exists processed2|].
  intros name.
  assert (Hwf2 : dict_wf (values_of out)).
  { unfold dict_wf. now rewrite keys_values_of. }
  rewrite dict_get_sweep_required.
  rewrite (dict_get_process_fields _ _ _ _ _ _ _ Hwf2 Hp2 name).
  rewrite dict_get_values_of, Hget. cbn [dict_get].
  destruct (dict_get name processed) as [e|] eqn:G.
  - apply dict_get_In in G. destruct (Hcons _ G) as [U Hentry].
    cbn [fst snd] in U, Hentry. cbn [option_map]. now rewrite U, Hentry.
  - destruct (marked_required name (template_fields tpl)) eqn:M;
      [|reflexivity].
    cbn [option_map Enhanced.value missing_required].
    destruct (startswith "_" name); [reflexivity|].
    unfold entry_for.
    fold validate. now rewrite (validate_marked_required _ _ Hwf M).
Qed.
End Aggregator.

(** C3. Every template field marked required that is not among the
    processed extracted fields (it is absent from the data, or it is
    skipped there for its leading underscore) is in the output of
    [enhance_confidence_with_template] with exactly the synthesized entry:
    value null, confidence Low, reasoning ["Required field is missing"],
    is_valid false.  Hence every required template field is in the output.
    With template {id: required string} and no data, the output is the
    synthesized entry for id. *)
Theorem C3_missing_required_synthesized :
  (forall float_of_str float_repr re_match data tpl out name fd,
     enhance_confidence_with_template float_of_str float_repr re_match data tpl
       = Ok out ->
     In (name, fd) (template_fields tpl) ->
     truthy (get_or (fd_required fd) (PBool false)) = true ->
     (In name (keys data) -> startswith "_" name = true) ->
     dict_get name out =
     Some (Enhanced.mk PNone "Low" ["Required field is missing"] false None))
  /\ (forall float_of_str float_repr re_match data tpl out name fd,
        enhance_confidence_with_template float_of_str float_repr re_match data tpl
          = Ok out ->
        In (name, fd) (template_fields tpl) ->
        truthy (get_or (fd_required fd) (PBool false)) = true ->
        In name (keys out))
  /\ (forall float_of_str float_repr re_match,
        enhance_confidence_with_template float_of_str float_repr re_match []
          (mk_template (Some
             [("id", mk_field_def (Some "string") (Some (PBool true))
                                  None None None None None None)]))
        = Ok [("id", Enhanced.mk PNone "Low" ["Required field is missing"]
                                 false None)]).
Proof.
  split; [|split].
  - intros fos fr rm data tpl out name fd H Hin Hr Hdata.
    apply enhance_inv in H as [processed [Hp ->]].
    rewrite dict_get_sweep_required.
    assert (G : dict_get name processed = None).
    { apply dict_get_None_keys. intros Hk.
      apply (process_fields_keys _ _ _ _ _ _ _ Hp) in Hk as [[]|[Hk U]].
      apply Hdata in Hk. congruence. }
    rewrite G.
    assert (M : marked_required name (template_fields tpl) = true)
      by (apply marked_required_In; now exists fd).
    now rewrite M.
  - intros fos fr rm data tpl out name fd H Hin Hr.
    apply enhance_inv in H as [processed [Hp ->]].
    apply dict_mem_keys. unfold dict_mem.
    rewrite dict_get_sweep_required.
    destruct (dict_get name processed); [reflexivity|].
    assert (M : marked_required name (template_fields tpl) = true)
      by (apply marked_required_In; now exists fd).
    now rewrite M.
  - intros. reflexivity.
Qed.

Lemma C3_missing_required_synthesized_witness :
  let id := mk_field_def (Some "string") (Some (PInt 1)) None None None None
                         None None in
  let tpl := mk_template (Some [("title", mk_field_def None None None None None
                                            None None None); ("_id", id)]) in
  let data := [("title", PStr "Report"); ("_id", PStr "A-17")] in
  let out := [("title", Enhanced.mk (PStr "Report") "High"
                          ["Type validation: Valid string"] true None);
              ("_id", Enhanced.mk PNone "Low" ["Required field is missing"]
                        false None)] in
  enhance_confidence_with_template Sample.float_of_str Sample.float_repr
    Sample.re_match data tpl = Ok out
  /\ In ("_id", id) (template_fields tpl)
  /\ truthy (get_or (fd_required id) (PBool false)) = true
  /\ dict_get "_id" out =
     Some (Enhanced.mk PNone "Low" ["Required field is missing"] false None).
Proof.
  intros id tpl data out.
  assert (H : enhance_confidence_with_template Sample.float_of_str
                Sample.float_repr Sample.re_match data tpl = Ok out)
    by reflexivity.
  assert (Hin : In ("_id", id) (template_fields tpl)) by (right; now left).
  split; [exact H|]. split; [exact Hin|]. split; [reflexivity|].
  apply (proj1 C3_missing_required_synthesized _ _ _ data tpl out "_id" id H Hin
           eq_refl).
  intros _. reflexivity.
Defined.

(** C10. Every result of [validate_against_template], and every entry
    of the output of [enhance_confidence_with_template], has a confidence
    among High, Medium, Low; is valid only at confidence High; and carries
    a suggested correction only when it is invalid at confidence Low. *)
Theorem C10_result_invariant :
  (forall float_of_str float_repr re_match name value tpl r,
     validate_against_template float_of_str float_repr re_match name value tpl
       = Ok r ->
     (Validation.confidence r = "High" \/ Validation.confidence r = "Medium"
      \/ Validation.confidence r = "Low")
     /\ (Validation.is_valid r = true -> Validation.confidence r = "High")
     /\ (Validation.suggested_correction r <> PNone ->
         Validation.is_valid r = false /\ Validation.confidence r = "Low"))
  /\ (forall float_of_str float_repr re_match data tpl out name e,
        enhance_confidence_with_template float_of_str float_repr re_match
          data tpl = Ok out ->
        In (name, e) out ->
        (Enhanced.confidence e = "High" \/ Enhanced.confidence e = "Medium"
         \/ Enhanced.confidence e = "Low")
        /\ (Enhanced.is_valid e = true -> Enhanced.confidence e = "High")
        /\ (Enhanced.suggested_correction e <> None ->
            Enhanced.is_valid e = false /\ Enhanced.confidence e = "Low")).
Proof.
  split.
  - intros fos fr rm name value tpl r H.
    exact (validate_against_template_inv _ _ _ _ _ _ _ H).
  - intros fos fr rm data tpl out name e H Hin.
    apply enhance_inv in H as [processed [Hp ->]].
    assert (A : Forall (fun item => enhanced_inv (snd item))
                  (sweep_required (template_fields tpl) processed)).
    { apply sweep_required_Forall; [intros; apply missing_required_inv|].
      apply (process_fields_Forall _ _ _ _ _ _
               (fun name value r _ V =>
                  enhanced_of_inv value r
                    (validate_against_template_inv _ _ _ _ _ _ _ V))
               [] processed (Forall_nil _) Hp). }
    rewrite Forall_forall in A. exact (A _ Hin).
Qed.

Lemma C10_result_invariant_witness :
  let amount := mk_field_def (Some "number") None None (Some (PInt 0))
                             (Some (PInt 1000)) None None None in
  let tpl := mk_template (Some [("amount", amount)]) in
  let r := Validation.mk false "Low"
             ["Type validation: Valid number";
              "Value <float> is above maximum 1000"] (PInt 1000) in
  validate_against_template Sample.float_of_str Sample.float_repr
    Sample.re_match "amount" (PInt 1500) tpl = Ok r
  /\ (Validation.suggested_correction r <> PNone ->
      Validation.is_valid r = false /\ Validation.confidence r = "Low").
Proof.
  intros amount tpl r.
  assert (H : validate_against_template Sample.float_of_str Sample.float_repr
                Sample.re_match "amount" (PInt 1500) tpl = Ok r)
    by (vm_compute; reflexivity).
  split; [exact H|].
  exact (proj2 (proj2 (proj1 C10_result_invariant _ _ _ _ _ _ _ H))).
Defined.

(** C9. [enhance_confidence_with_template] is idempotent on verdicts:
    for a template whose field names are unique, feeding the values of its
    output back in as extracted data against the same template returns,
    and gives every field the same is_valid and the same confidence as the
    first pass (and the same set of fields). *)
Theorem C9_enhance_idempotent_on_verdicts :
  forall float_of_str float_repr re_match data tpl out,
    dict_wf (template_fields tpl) ->
    enhance_confidence_with_template float_of_str float_repr re_match data tpl
      = Ok out ->
    exists out2,
      enhance_confidence_with_template float_of_str float_repr re_match
        (values_of out) tpl = Ok out2
      /\ forall name,
           option_map (fun e => (Enhanced.is_valid e, Enhanced.confidence e))
                      (dict_get name out2) =
           option_map (fun e => (Enhanced.is_valid e, Enhanced.confidence e))
                      (dict_get name out).
Proof.
  intros fos fr rm data tpl out Hwf H.
  exact (enhance_idempotent fos fr rm data tpl out Hwf H).
Qed.

Lemma C9_enhance_idempotent_on_verdicts_witness :
  let tpl := mk_template (Some
    [("amount", mk_field_def (Some "number") None None (Some (PInt 0))
                             (Some (PInt 1000)) None None None);
     ("id", mk_field_def (Some "string") (Some (PBool true)) None None None
                         None None None);
     ("_batch", mk_field_def None (Some (PBool true)) None None None None
                             None None)]) in
  let data := [("amount", PInt 1500); ("_note", PStr "internal")] in
  let out :=
    [("amount", Enhanced.mk (PInt 1500) "Low"
                  ["Type validation: Valid number";
                   "Value <float> is above maximum 1000"] false
                  (Some (PInt 1000)));
     ("id", Enhanced.mk PNone "Low" ["Required field is missing"] false None);
     ("_batch", Enhanced.mk PNone "Low" ["Required field is missing"] false
                  None)] in
  dict_wf (template_fields tpl)
  /\ enhance_confidence_with_template Sample.float_of_str Sample.float_repr
       Sample.re_match data tpl = Ok out
  /\ exists out2,
       enhance_confidence_with_template Sample.float_of_str Sample.float_repr
         Sample.re_match (values_of out) tpl = Ok out2
       /\ forall name,
            option_map (fun e => (Enhanced.is_valid e, Enhanced.confidence e))
                       (dict_get name out2) =
            option_map (fun e => (Enhanced.is_valid e, Enhanced.confidence e))
                       (dict_get name out).
Proof.
  intros tpl data out.
  assert (Hwf : dict_wf (template_fields tpl)).
  { repeat constructor; simpl; intuition discriminate. }
  assert (H : enhance_confidence_with_template Sample.float_of_str
                Sample.float_repr Sample.re_match data tpl = Ok out)
    by (vm_compute; reflexivity).
  split; [exact Hwf|]. split; [exact H|].
  exact (C9_enhance_idempotent_on_verdicts _ _ _ data tpl out Hwf H).
Defined.

(** ** Formatting *)

(** Stores at new keys append their bindings. *)
Lemma fold_store_fresh items : forall d,
  NoDup (keys (d ++ items)) -> fold_left store items d = d ++ items.
Proof.
  induction items as [|[k v] items IH]; intros d Hnd.
  - now rewrite app_nil_r.
  - cbn [fold_left]. unfold store at 2. cbn [fst snd].
    assert (Hfresh : ~ In k (keys d)).
    { unfold keys in *. rewrite map_app in Hnd. cbn [map fst] in Hnd.
      apply NoDup_remove_2 in Hnd. intros Hin. apply Hnd.
      apply in_or_app. now left. }
    rewrite (dict_set_fresh _ _ _ Hfresh), IH.
    + now rewrite <- app_assoc.
    + now rewrite <- app_assoc.
Qed.

Lemma keys_fold_store items : forall d key,
  In key (keys (fold_left store items d)) ->
  In key (keys d) \/ In key (keys items).
Proof.
  induction items as [|[k v] items IH]; intros d key Hin.
  - now left.
  - cbn [fold_left] in Hin. apply IH in Hin as [Hin|Hin].
    + unfold store in Hin. apply keys_dict_set in Hin as [->|Hin].
      * right. now left.
      * now left.
    + right. now right.
Qed.

Lemma dict_wf_fold_store items : forall d,
  dict_wf d -> dict_wf (fold_left store items d).
Proof.
  induction items as [|[k v] items IH]; intros d Hwf; [exact Hwf|].
  cbn [fold_left]. apply IH. now apply dict_wf_set.
Qed.

(** One round of the formatting loop is the stores of the field's
    bindings. *)
Lemma format_field_stores include_reasoning formatted item :
  format_field include_reasoning formatted item =
  fold_left store (flat_items include_reasoning item) formatted.
Proof.
  destruct item as [field_name field_data].
  unfold format_field, flat_items.
  destruct include_reasoning, (Enhanced.reasoning field_data); reflexivity.
Qed.

Lemma fold_format_field_stores include_reasoning er : forall formatted,
  fold_left (format_field include_reasoning) er formatted =
  fold_left store (flat_map (flat_items include_reasoning) er) formatted.
Proof.
  induction er as [|item er IH]; intros formatted; [reflexivity|].
  cbn [fold_left flat_map]. now rewrite fold_left_app, IH, format_field_stores.
Qed.

Lemma format_confidence_results_stores er include_reasoning :
  format_confidence_results er include_reasoning =
  fold_left store (flat_expected er include_reasoning) [].
Proof.
  unfold format_confidence_results, flat_expected.
  now rewrite fold_left_app, fold_format_field_stores.
Qed.

Lemma In_flat_expected er include_reasoning name e :
  In (name, e) er ->
  In (name, Enhanced.value e) (flat_expected er include_reasoning)
  /\ In ((name ++ "_confidence")%string, PStr (Enhanced.confidence e))
        (flat_expected er include_reasoning)
  /\ (include_reasoning = true -> Enhanced.reasoning e <> [] ->
      In ((name ++ "_reasoning")%string,
          PStr (join " " (Enhanced.reasoning e)))
         (flat_expected er include_reasoning)).
Proof.
  intros Hin. unfold flat_expected.
  repeat split; intros; apply in_or_app; left; apply in_flat_map;
    exists (name, e); (split; [exact Hin|]); cbn [flat_items].
  - now left.
  - right. now left.
  - subst include_reasoning.
    destruct (Enhanced.reasoning e); [contradiction|]. right. right. now left.
Qed.

Lemma keys_flat_expected er include_reasoning key :
  In key (keys (flat_expected er include_reasoning)) ->
  key = "_overall_confidence"
  \/ exists name, In name (keys er)
       /\ (key = name \/ key = (name ++ "_confidence")%string
           \/ key = (name ++ "_reasoning")%string).
Proof.
  unfold keys, flat_expected. rewrite map_app, in_app_iff. cbn [map fst].
  intros [Hin|[<-|[]]]; [right|now left].
  apply in_map_iff in Hin as [[k v] [<- Hin]].
  apply in_flat_map in Hin as [[name e] [Her Hin]].
  exists name. split; [change name with (fst (name, e)); now apply in_map|].
  cbn [flat_items fst] in *.
  destruct Hin as [Heq|[Heq|Hin]].
  - injection Heq as <- _. now left.
  - injection Heq as <- _. right. now left.
  - destruct include_reasoning, (Enhanced.reasoning e); try contradiction.
    destruct Hin as [Heq|[]]. injection Heq as <- _. right. now right.
Qed.

(** C6, as stated, fails: a field named like another field's confidence
    key shares that key.  On the extracted data
    {total: "12", total_confidence: "High"} and a template without
    fields, both fields come out at confidence Low, and the flat mapping
    holds "High" at [total_confidence]: the confidence of [total] is not
    recoverable, and there are six keys where seven were promised. *)
Lemma C6_counterexample :
  let not_found name :=
    ["Field '" ++ name ++ "' not found in template"]%string in
  let total := Enhanced.mk (PStr "12") "Low" (not_found "total") false None in
  let total_confidence :=
    Enhanced.mk (PStr "High") "Low" (not_found "total_confidence") false None in
  let er := [("total", total); ("total_confidence", total_confidence)] in
  enhance_confidence_with_template Sample.float_of_str Sample.float_repr
    Sample.re_match
    [("total", PStr "12"); ("total_confidence", PStr "High")]
    (mk_template None) = Ok er
  /\ dict_get "total" er = Some total
  /\ Enhanced.confidence total = "Low"
  /\ dict_get "total_confidence" (format_confidence_results er true)
     = Some (PStr "High")
  /\ keys (format_confidence_results er true) =
     ["total"; "total_confidence"; "total_reasoning";
      "total_confidence_confidence"; "total_confidence_reasoning";
      "_overall_confidence"].
Proof.
  cbv zeta. repeat split; vm_compute; reflexivity.
Qed.

(** C6, amended.  When the keys that the fields produce by the key
    convention, together with [_overall_confidence], are pairwise
    distinct, [format_confidence_results] produces exactly, for each field
    in order, one [<field>] binding, one [<field>_confidence] binding and,
    exactly when [include_reasoning] is true and the field's reasoning is
    not empty, one [<field>_reasoning] binding, then the single
    [_overall_confidence] binding; and the value and the confidence of
    each field are read back from the flat mapping at these keys.  In
    every case the flat mapping holds each key once and
    [_overall_confidence] is the overall confidence. *)
Theorem C6_flattening_amended :
  forall er include_reasoning,
    let formatted := format_confidence_results er include_reasoning in
    (dict_wf formatted
     /\ dict_get "_overall_confidence" formatted =
        Some (PStr (calculate_overall_confidence er)))
    /\ (NoDup (keys (flat_expected er include_reasoning)) ->
        formatted = flat_expected er include_reasoning
        /\ forall name e, In (name, e) er ->
             dict_get name formatted = Some (Enhanced.value e)
             /\ dict_get (name ++ "_confidence")%string formatted =
                Some (PStr (Enhanced.confidence e))
             /\ (include_reasoning = true -> Enhanced.reasoning e <> [] ->
                 dict_get (name ++ "_reasoning")%string formatted =
                 Some (PStr (join " " (Enhanced.reasoning e))))).
Proof.
  intros er incl formatted. split.
  - split.
    + unfold formatted. rewrite format_confidence_results_stores.
      apply dict_wf_fold_store, dict_wf_nil.
    + apply dict_get_set_same.
  - intros Hnd.
    assert (E : formatted = flat_expected er incl).
    { unfold formatted. rewrite format_confidence_results_stores.
      now rewrite fold_store_fresh. }
    split; [exact E|].
    intros name e Hin. rewrite E.
    destruct (In_flat_expected er incl name e Hin) as (Hv & Hc & Hr).
    split; [now apply In_dict_get|].
    split; [now apply In_dict_get|].
    intros Hincl Hne. apply In_dict_get; [exact Hnd|]. now apply Hr.
Qed.

Lemma C6_flattening_amended_witness :
  let er := [("total", Enhanced.mk (PStr "12") "High"
                         ["Type validation: Valid number"] true None);
             ("note", Enhanced.mk (PStr "") "High" [] true None)] in
  NoDup (keys (flat_expected er true))
  /\ format_confidence_results er true =
     [("total", PStr "12"); ("total_confidence", PStr "High");
      ("total_reasoning", PStr "Type validation: Valid number");
      ("note", PStr ""); ("note_confidence", PStr "High");
      ("_overall_confidence", PStr "High")].
Proof.
  intros er.
  assert (Hnd : NoDup (keys (flat_expected er true))).
  { vm_compute. repeat constructor; simpl; intuition discriminate. }
  split; [exact Hnd|].
  rewrite (proj1 (proj2 (C6_flattening_amended er true) Hnd)).
  vm_compute. reflexivity.
Defined.

(** C7, as stated, fails: the sweep over the template synthesizes an
    entry for a required field whatever its name.  With the template
    {_id: required} and no data, [_id] is in the output and in the
    formatted result. *)
Lemma C7_counterexample :
  let tpl := mk_template (Some
    [("_id", mk_field_def (Some "string") (Some (PBool true)) None None None
                          None None None)]) in
  let out := [("_id", Enhanced.mk PNone "Low" ["Required field is missing"]
                        false None)] in
  startswith "_" "_id" = true
  /\ enhance_confidence_with_template Sample.float_of_str Sample.float_repr
       Sample.re_match [] tpl = Ok out
  /\ dict_mem "_id" out = true
  /\ "_id" <> "_overall_confidence"
  /\ dict_mem "_id" (format_confidence_results out true) = true.
Proof.
  cbv zeta. repeat split; try (vm_compute; reflexivity). discriminate.
Qed.

(** C7, amended.  A name that begins with an underscore is never taken
    from the extracted data: it is in the output of
    [enhance_confidence_with_template] exactly when the template marks it
    required, and then with the synthesized missing-field entry; so when
    the template marks no such field required, no output field begins with
    an underscore.  Every key of the formatted result is
    [_overall_confidence], an output field, or an output field followed by
    [_confidence] or [_reasoning]. *)
Theorem C7_internal_fields_amended :
  forall float_of_str float_repr re_match data tpl out,
    enhance_confidence_with_template float_of_str float_repr re_match data tpl
      = Ok out ->
    (forall name, startswith "_" name = true ->
       dict_get name out =
       if marked_required name (template_fields tpl)
       then Some (Enhanced.mk PNone "Low" ["Required field is missing"]
                              false None)
       else None)
    /\ (forall include_reasoning key,
          In key (keys (format_confidence_results out include_reasoning)) ->
          key = "_overall_confidence"
          \/ exists name, In name (keys out)
               /\ (key = name \/ key = (name ++ "_confidence")%string
                   \/ key = (name ++ "_reasoning")%string)).
Proof.
  intros fos fr rm data tpl out H. split.
  - intros name U.
    apply enhance_inv in H as [processed [Hp ->]].
    rewrite dict_get_sweep_required.
    assert (G : dict_get name processed = None).
    { apply dict_get_None_keys. intros Hk.
      apply (process_fields_keys _ _ _ _ _ _ _ Hp) in Hk as [[]|[_ U']].
      congruence. }
    now rewrite G.
  - intros incl key Hin.
    rewrite format_confidence_results_stores in Hin.
    apply keys_fold_store in Hin as [[]|Hin].
    now apply keys_flat_expected in Hin.
Qed.

Lemma C7_internal_fields_amended_witness :
  let tpl := mk_template (Some
    [("title", mk_field_def None (Some (PBool true)) None None None None
                            None None)]) in
  let data := [("_source", PStr "scan-7"); ("title", PStr "Report")] in
  let out := [("title", Enhanced.mk (PStr "Report") "High"
                          ["Type validation: Valid string"] true None)] in
  enhance_confidence_with_template Sample.float_of_str Sample.float_repr
    Sample.re_match data tpl = Ok out
  /\ startswith "_" "_source" = true
  /\ dict_get "_source" out = None.
Proof.
  intros tpl data out.
  assert (H : enhance_confidence_with_template Sample.float_of_str
                Sample.float_repr Sample.re_match data tpl = Ok out)
    by (vm_compute; reflexivity).
  split; [exact H|]. split; [reflexivity|].
  exact (proj1 (C7_internal_fields_amended _ _ _ data tpl out H)
           "_source" eq_refl).
Defined.

(** ** Exceptions *)

(** C8. The handler of [validate_field_type] catches [ValueError] and
    [TypeError]: a string and an object that [float] refuses come back as
    invalid results that carry the failure message.  It does not catch
    [OverflowError], which [float] raises on an integer beyond the range
    of a double: on the value 2 ** 1024 at type number the exception
    leaves [validate_field_type], [validate_against_template] and
    [enhance_confidence_with_template], where the specification promises
    an invalid, low-confidence result. *)
Theorem C8_overflow_error_escapes :
  let tpl := mk_template (Some
    [("amount", mk_field_def (Some "number") None None None None None None
                             None)]) in
  let overflow := OverflowError "int too large to convert to float" in
  validate_field_type Sample.float_of_str (PStr "twelve") "number"
    = Ok (false,
          "Validation failed: could not convert string to float: 'twelve'")
  /\ validate_field_type Sample.float_of_str (POther "list" "[]" false) "number"
     = Ok (false,
           "Validation failed: float() argument must be a string or a real number, not 'list'")
  /\ validate_field_type Sample.float_of_str (PInt (2 ^ 1024)) "number"
     = Raise overflow
  /\ validate_against_template Sample.float_of_str Sample.float_repr
       Sample.re_match "amount" (PInt (2 ^ 1024)) tpl = Raise overflow
  /\ enhance_confidence_with_template Sample.float_of_str Sample.float_repr
       Sample.re_match [("amount", PInt (2 ^ 1024))] tpl = Raise overflow.
Proof.
  cbv zeta. repeat split; vm_compute; reflexivity.
Qed.

(** * Further properties of the validator and the aggregator *)

(** ** The shapes of a validation result *)

Section ValidationCases.
Variable float_of_str : string -> float_parse.
Variable float_repr : pyfloat -> string.
Variable re_match : string -> string -> Exc bool.

Lemma check_enum_cases value fd result r :
  check_enum float_repr value fd result = Ok (Some r) ->
  exists msg,
    r = Validation.mk (Validation.is_valid result) "Low"
          (Validation.reasoning result ++ [msg])
          (match get_or (fd_options fd) [] with v :: _ => v | [] => PNone end).
Proof.
  unfold check_enum. destruct (negb _); [|discriminate].
  intros [= <-]. eexists. reflexivity.
Qed.

Lemma check_number_cases value fd result r :
  check_number float_of_str float_repr value fd result = Ok (Some r) ->
  exists msg bound,
    (fd_min fd = Some bound \/ fd_max fd = Some bound)
    /\ r = Validation.mk (Validation.is_valid result) "Low"
             (Validation.reasoning result ++ [msg]) bound.
Proof.
  unfold check_number.
  destruct (py_float float_of_str value) as [num_value|]; [|discriminate].
  cbn [bind].
  destruct (fd_min fd) as [mn|] eqn:Emin; cbn [below bind].
  - destruct (num_lt (NFloat num_value) mn) as [[|]|]; cbn [bind];
      try discriminate.
    + intros [= <-]. do 2 eexists. split; [left; reflexivity|reflexivity].
    + destruct (fd_max fd) as [mx|] eqn:Emax; cbn [above bind];
        [|discriminate].
      destruct (num_gt (NFloat num_value) mx) as [[|]|]; cbn [bind];
        try discriminate.
      intros [= <-]. do 2 eexists. split; [right; reflexivity|reflexivity].
  - destruct (fd_max fd) as [mx|] eqn:Emax; cbn [above bind];
      [|discriminate].
    destruct (num_gt (NFloat num_value) mx) as [[|]|]; cbn [bind];
      try discriminate.
    intros [= <-]. do 2 eexists. split; [right; reflexivity|reflexivity].
Qed.

Lemma check_string_cases value fd result r :
  check_string float_repr re_match value fd result = Ok (Some r) ->
  exists msg,
    r = Validation.mk (Validation.is_valid result) "Medium"
          (Validation.reasoning result ++ [msg])
          (Validation.suggested_correction result).
Proof.
  unfold check_string.
  destruct (below _ (fd_min_length fd)) as [[|]|]; cbn [bind];
    try discriminate.
  { intros [= <-]. eexists. reflexivity. }
  destruct (above _ (fd_max_length fd)) as [[|]|]; cbn [bind];
    try discriminate.
  { intros [= <-]. eexists. reflexivity. }
  destruct (pattern_fails re_match (fd_pattern fd) _) as [[|]|]; cbn [bind];
    try discriminate.
  intros [= <-]. eexists. reflexivity.
Qed.

(** A value accepted at type string is a [str]. *)
Lemma validate_field_type_string value ft reason :
  lower ft = "string" ->
  validate_field_type float_of_str value ft = Ok (true, reason) ->
  is_str value = true.
Proof.
  intros E. unfold validate_field_type. rewrite E.
  destruct (is_none value); [discriminate|].
  cbn [String.eqb Ascii.eqb Bool.eqb andb].
  destruct (is_str value); [reflexivity|discriminate].
Qed.

Lemma validate_against_template_outcome name value tpl r :
  validate_against_template float_of_str float_repr re_match name value tpl
    = Ok r ->
  outcome float_of_str name value tpl r.
Proof.
  unfold validate_against_template.
  destruct (dict_get name (template_fields tpl)) as [fd|] eqn:Hfd.
  2:{ intros [= <-]. now apply NotInTemplate. }
  destruct (is_empty value) eqn:Hempty.
  { destruct (required fd) eqn:Hreq; cbn [andb]; intros [= <-].
    - now apply (RequiredEmpty _ _ _ _ fd).
    - now apply (OptionalEmpty _ _ _ _ fd). }
  rewrite andb_false_r.
  destruct (validate_field_type float_of_str value _) as [[ok reason]|] eqn:Hv;
    [|discriminate].
  cbn [bind]. destruct ok; cbn [negb].
  2:{ intros [= <-]. now apply (WrongType _ _ _ _ fd). }
  destruct (additional_validations _ _ _ _ _ _ _) as [[early|]|] eqn:E;
    cbn [bind]; try discriminate; intros [= <-].
  2:{ now apply (Passed _ _ _ _ fd). }
  unfold additional_validations in E.
  destruct (String.eqb_spec (lower (get_or (fd_type fd) "string")) "enum")
    as [Een|_].
  { apply check_enum_cases in E as [msg ->]. now apply (NotAnOption _ _ _ _ fd). }
  destruct (String.eqb_spec (lower (get_or (fd_type fd) "string")) "number")
    as [Enum|_].
  { apply check_number_cases in E as [msg [bound [Hb ->]]].
    now apply (OutOfRange _ _ _ _ fd). }
  destruct (String.eqb_spec (lower (get_or (fd_type fd) "string")) "string")
    as [Estr|_]; [|discriminate E].
  apply check_string_cases in E as [msg ->].
  apply (BadShape _ _ _ _ fd); auto.
  now apply (validate_field_type_string _ _ _ Estr Hv).
Qed.
End ValidationCases.

(** The formatted result has a key for every binding stored. *)
Lemma keys_fold_store_intro items : forall d key,
  In key (keys d) \/ In key (keys items) ->
  In key (keys (fold_left store items d)).
Proof.
  induction items as [|[k v] items IH]; intros d key H.
  - destruct H as [H|[]]. exact H.
  - cbn [fold_left]. apply IH. unfold store. cbn [fst snd].
    destruct H as [H|[H|H]].
    + left. apply keys_dict_set. now right.
    + left. apply keys_dict_set. left. now symmetry.
    + now right.
Qed.

(** X1. A validation result is valid exactly when its confidence is
    High, and so is every entry of the output of
    [enhance_confidence_with_template]. *)
Theorem X1_valid_iff_high :
  (forall float_of_str float_repr re_match name value tpl r,
     validate_against_template float_of_str float_repr re_match name value tpl
       = Ok r ->
     (Validation.is_valid r = true <-> Validation.confidence r = "High"))
  /\ (forall float_of_str float_repr re_match data tpl out name e,
        enhance_confidence_with_template float_of_str float_repr re_match
          data tpl = Ok out ->
        In (name, e) out ->
        (Enhanced.is_valid e = true <-> Enhanced.confidence e = "High")).
Proof.
  assert (V : forall float_of_str float_repr re_match name value tpl r,
     validate_against_template float_of_str float_repr re_match name value tpl
       = Ok r ->
     (Validation.is_valid r = true <-> Validation.confidence r = "High")).
  { intros fos fr rm name value tpl r H.
    apply validate_against_template_outcome in H.
    destruct H; cbn; split; intros E; try reflexivity; discriminate E. }
  split; [exact V|].
  intros fos fr rm data tpl out name e H Hin.
  apply enhance_inv in H as [processed [Hp ->]].
  assert (A : Forall (fun item =>
                Enhanced.is_valid (snd item) = true <->
                Enhanced.confidence (snd item) = "High")
                (sweep_required (template_fields tpl) processed)).
  { apply sweep_required_Forall.
    - intros other. cbn. split; discriminate.
    - apply (process_fields_Forall _ _ _ _ _ _
               (fun name value r _ W => V _ _ _ _ _ _ _ W)
               [] processed (Forall_nil _) Hp). }
  rewrite Forall_forall in A. exact (A _ Hin).
Qed.

Lemma X1_valid_iff_high_witness :
  let tpl := mk_template (Some
    [("code", mk_field_def (Some "string") None None None None None
                           (Some (PInt 3)) None)]) in
  let r := Validation.mk false "Medium"
             ["Type validation: Valid string";
              "String is too long (max 3 characters)"] PNone in
  validate_against_template Sample.float_of_str Sample.float_repr
    Sample.re_match "code" (PStr "ABCD") tpl = Ok r
  /\ (Validation.is_valid r = true <-> Validation.confidence r = "High").
Proof.
  intros tpl r.
  assert (H : validate_against_template Sample.float_of_str Sample.float_repr
                Sample.re_match "code" (PStr "ABCD") tpl = Ok r)
    by (vm_compute; reflexivity).
  split; [exact H|].
  exact (proj1 X1_valid_iff_high _ _ _ _ _ _ _ H).
Defined.

(** X2. A validation result carries one or two reasoning messages, and
    exactly one when it is valid.  So every entry of the output of
    [enhance_confidence_with_template] has a reasoning of one or two
    messages, and [format_confidence_results] with [include_reasoning]
    gives every field of that output its [<field>_reasoning] key. *)
Theorem X2_reasoning_never_empty :
  (forall float_of_str float_repr re_match name value tpl r,
     validate_against_template float_of_str float_repr re_match name value tpl
       = Ok r ->
     (1 <= List.length (Validation.reasoning r) <= 2)%nat
     /\ (Validation.is_valid r = true ->
         List.length (Validation.reasoning r) = 1%nat))
  /\ (forall float_of_str float_repr re_match data tpl out name e,
        enhance_confidence_with_template float_of_str float_repr re_match
          data tpl = Ok out ->
        In (name, e) out ->
        (1 <= List.length (Enhanced.reasoning e) <= 2)%nat
        /\ In (name ++ "_reasoning")%string
              (keys (format_confidence_results out true))).
Proof.
  assert (V : forall float_of_str float_repr re_match name value tpl r,
     validate_against_template float_of_str float_repr re_match name value tpl
       = Ok r ->
     (1 <= List.length (Validation.reasoning r) <= 2)%nat
     /\ (Validation.is_valid r = true ->
         List.length (Validation.reasoning r) = 1%nat)).
  { intros fos fr rm name value tpl r H.
    apply validate_against_template_outcome in H.
    destruct H; cbn; (split; [lia|]); intros E; try reflexivity;
      discriminate E. }
  split; [exact V|].
  intros fos fr rm data tpl out name e H Hin.
  assert (L : (1 <= List.length (Enhanced.reasoning e) <= 2)%nat).
  { apply enhance_inv in H as [processed [Hp ->]].
    assert (A : Forall (fun item =>
                  (1 <= List.length (Enhanced.reasoning (snd item)) <= 2)%nat)
                  (sweep_required (template_fields tpl) processed)).
    { apply sweep_required_Forall.
      - intros other. cbn. lia.
      - apply (process_fields_Forall _ _ _ _ _ _
                 (fun name value r _ W => proj1 (V _ _ _ _ _ _ _ W))
                 [] processed (Forall_nil _) Hp). }
    rewrite Forall_forall in A. exact (A _ Hin). }
  split; [exact L|].
  rewrite format_confidence_results_stores.
  apply keys_fold_store_intro. right.
  assert (Hne : Enhanced.reasoning e <> []).
  { intros E. rewrite E in L. cbn in L. lia. }
  destruct (In_flat_expected out true name e Hin) as (_ & _ & Hr).
  specialize (Hr eq_refl Hne).
  change (name ++ "_reasoning")%string
    with (fst ((name ++ "_reasoning")%string,
               PStr (join " " (Enhanced.reasoning e)))).
  unfold keys. now apply in_map.
Qed.

Lemma X2_reasoning_never_empty_witness :
  let tpl := mk_template (Some
    [("id", mk_field_def (Some "string") (Some (PBool true)) None None None
                         None None None)]) in
  let out := [("note", Enhanced.mk (PStr "n/a") "Low"
                         ["Field 'note' not found in template"] false None);
              ("id", Enhanced.mk PNone "Low" ["Required field is missing"]
                       false None)] in
  enhance_confidence_with_template Sample.float_of_str Sample.float_repr
    Sample.re_match [("note", PStr "n/a")] tpl = Ok out
  /\ In ("id", Enhanced.mk PNone "Low" ["Required field is missing"] false None)
        out
  /\ In "id_reasoning" (keys (format_confidence_results out true)).
Proof.
  intros tpl out.
  assert (H : enhance_confidence_with_template Sample.float_of_str
                Sample.float_repr Sample.re_match [("note", PStr "n/a")] tpl
              = Ok out) by (vm_compute; reflexivity).
  assert (Hin : In ("id", Enhanced.mk PNone "Low" ["Required field is missing"]
                            false None) out) by (right; now left).
  split; [exact H|]. split; [exact Hin|].
  exact (proj2 (proj2 X2_reasoning_never_empty _ _ _ _ _ _ _ _ H Hin)).
Defined.

(** X3. Confidence Medium is given to string-typed fields only: a
    result at Medium belongs to a field of the template whose type is
    string, for a value that is a [str], and is invalid without a
    suggested correction. *)
Theorem X3_medium_only_for_strings :
  forall float_of_str float_repr re_match name value tpl r,
    validate_against_template float_of_str float_repr re_match name value tpl
      = Ok r ->
    Validation.confidence r = "Medium" ->
    (exists fd,
       dict_get name (template_fields tpl) = Some fd
       /\ lower (get_or (fd_type fd) "string") = "string")
    /\ is_str value = true
    /\ Validation.is_valid r = false
    /\ Validation.suggested_correction r = PNone.
Proof.
  intros fos fr rm name value tpl r H M.
  apply validate_against_template_outcome in H.
  destruct H; cbn in M; try discriminate M.
  split; [now exists fd|]. repeat split. assumption.
Qed.

Lemma X3_medium_only_for_strings_witness :
  let code := mk_field_def None None None None None (Some (PInt 3)) None None in
  let tpl := mk_template (Some [("code", code)]) in
  let r := Validation.mk false "Medium"
             ["Type validation: Valid string";
              "String is too short (min 3 characters)"] PNone in
  validate_against_template Sample.float_of_str Sample.float_repr
    Sample.re_match "code" (PStr "ab") tpl = Ok r
  /\ Validation.confidence r = "Medium"
  /\ is_str (PStr "ab") = true.
Proof.
  intros code tpl r.
  assert (H : validate_against_template Sample.float_of_str Sample.float_repr
                Sample.re_match "code" (PStr "ab") tpl = Ok r)
    by (vm_compute; reflexivity).
  split; [exact H|]. split; [reflexivity|].
  exact (proj1 (proj2 (X3_medium_only_for_strings _ _ _ _ _ _ _ H eq_refl))).
Defined.

(** X4. A suggested correction is never invented: when a result carries
    one, it is the first declared option of an enum-typed field, or the
    declared min or max of a number-typed field. *)
Theorem X4_correction_from_template :
  forall float_of_str float_repr re_match name value tpl r,
    validate_against_template float_of_str float_repr re_match name value tpl
      = Ok r ->
    Validation.suggested_correction r <> PNone ->
    exists fd,
      dict_get name (template_fields tpl) = Some fd
      /\ ((lower (get_or (fd_type fd) "string") = "enum"
           /\ exists rest,
                fd_options fd = Some (Validation.suggested_correction r :: rest))
          \/ (lower (get_or (fd_type fd) "string") = "number"
              /\ (fd_min fd = Some (Validation.suggested_correction r)
                  \/ fd_max fd = Some (Validation.suggested_correction r)))).
Proof.
  intros fos fr rm name value tpl r H S.
  apply validate_against_template_outcome in H.
  destruct H; cbn in S; try (now contradiction S).
  - exists fd. split; [assumption|]. left. split; [assumption|]. cbn.
    destruct (fd_options fd) as [[|v rest]|]; cbn in S;
      try (now contradiction S).
    now exists rest.
  - exists fd. split; [assumption|]. right. now split.
Qed.

Lemma X4_correction_from_template_witness :
  let amount := mk_field_def (Some "number") None None (Some (PInt 10))
                             (Some (PInt 1000)) None None None in
  let tpl := mk_template (Some [("amount", amount)]) in
  let r := Validation.mk false "Low"
             ["Type validation: Valid number";
              "Value <float> is below minimum 10"] (PInt 10) in
  validate_against_template Sample.float_of_str Sample.float_repr
    Sample.re_match "amount" (PStr "7") tpl = Ok r
  /\ exists fd,
       dict_get "amount" (template_fields tpl) = Some fd
       /\ ((lower (get_or (fd_type fd) "string") = "enum"
            /\ exists rest, fd_options fd = Some (PInt 10 :: rest))
           \/ (lower (get_or (fd_type fd) "string") = "number"
               /\ (fd_min fd = Some (PInt 10) \/ fd_max fd = Some (PInt 10)))).
Proof.
  intros amount tpl r.
  assert (H : validate_against_template Sample.float_of_str Sample.float_repr
                Sample.re_match "amount" (PStr "7") tpl = Ok r)
    by (vm_compute; reflexivity).
  split; [exact H|].
  apply (X4_correction_from_template _ _ _ _ _ _ _ H). discriminate.
Defined.

(** ** The aggregator, field by field *)

(** X5. On extracted data with one value per name, the output of
    [enhance_confidence_with_template] is determined field by field: a
    field of the data whose name does not begin with an underscore holds
    its own value and the result of validating that value, whatever the
    other fields are; any other name is in the output exactly when the
    template marks it required, with the synthesized entry. *)
Theorem X5_enhance_field_by_field :
  forall float_of_str float_repr re_match data tpl out,
    dict_wf data ->
    enhance_confidence_with_template float_of_str float_repr re_match data tpl
      = Ok out ->
    (forall name value,
       dict_get name data = Some value -> startswith "_" name = false ->
       exists r,
         validate_against_template float_of_str float_repr re_match
           name value tpl = Ok r
         /\ dict_get name out =
            Some (Enhanced.mk value (Validation.confidence r)
                    (Validation.reasoning r) (Validation.is_valid r)
                    (match Validation.suggested_correction r with
                     | PNone => None
                     | correction => Some correction
                     end)))
    /\ (forall name,
          dict_get name data = None \/ startswith "_" name = true ->
          dict_get name out =
          if marked_required name (template_fields tpl)
          then Some (Enhanced.mk PNone "Low" ["Required field is missing"]
                                 false None)
          else None).
Proof.
  intros fos fr rm data tpl out Hwf H.
  apply enhance_inv in H as [processed [Hp ->]].
  pose proof (dict_get_process_fields _ _ _ _ _ _ _ Hwf Hp) as G.
  cbn [dict_get] in G. split.
  - intros name value Hd U.
    specialize (G name). rewrite Hd, U in G. unfold entry_for in G.
    destruct (validate_against_template fos fr rm name value tpl) as [r|] eqn:V.
    + exists r. split; [reflexivity|].
      rewrite dict_get_sweep_required, G. unfold enhanced_of.
      now destruct (Validation.suggested_correction r).
    + exfalso.
      assert (Hin : In name (keys processed)).
      { apply (process_fields_keys _ _ _ _ _ _ _ Hp). right. split; [|exact U].
        apply dict_get_In in Hd. change name with (fst (name, value)).
        unfold keys. now apply in_map. }
      apply dict_get_None_keys in G. contradiction.
  - intros name Hn. rewrite dict_get_sweep_required, (G name).
    destruct Hn as [Hn|Hn].
    + now rewrite Hn.
    + rewrite Hn. now destruct (dict_get name data).
Qed.

Lemma X5_enhance_field_by_field_witness :
  let tpl := mk_template (Some
    [("amount", mk_field_def (Some "number") None None None
                             (Some (PInt 1000)) None None None);
     ("id", mk_field_def None (Some (PBool true)) None None None None None
                         None)]) in
  let data := [("amount", PInt 1500); ("_page", PInt 3)] in
  let out :=
    [("amount", Enhanced.mk (PInt 1500) "Low"
                  ["Type validation: Valid number";
                   "Value <float> is above maximum 1000"] false
                  (Some (PInt 1000)));
     ("id", Enhanced.mk PNone "Low" ["Required field is missing"] false None)]
  in
  dict_wf data
  /\ enhance_confidence_with_template Sample.float_of_str Sample.float_repr
       Sample.re_match data tpl = Ok out
  /\ dict_get "_page" out = None
  /\ dict_get "id" out =
     Some (Enhanced.mk PNone "Low" ["Required field is missing"] false None).
Proof.
  intros tpl data out.
  assert (Hwf : dict_wf data).
  { repeat constructor; simpl; intuition discriminate. }
  assert (H : enhance_confidence_with_template Sample.float_of_str
                Sample.float_repr Sample.re_match data tpl = Ok out)
    by (vm_compute; reflexivity).
  split; [exact Hwf|]. split; [exact H|].
  pose proof (proj2 (X5_enhance_field_by_field _ _ _ data tpl out Hwf H)) as P.
  split.
  - exact (P "_page" (or_intror eq_refl)).
  - exact (P "id" (or_introl eq_refl)).
Defined.

(** ** Overall confidence on degenerate records *)

Lemma count_at_zero c er :
  (forall name e, In (name, e) er -> Enhanced.confidence e <> c) ->
  count_at c er = 0.
Proof.
  induction er as [|[k e] er IH]; intros H; [reflexivity|].
  rewrite count_at_cons, IH.
  - destruct (String.eqb_spec (Enhanced.confidence e) c) as [E|_];
      [|reflexivity].
    exfalso. apply (H k e); [now left|exact E].
  - intros name e' Hin. apply (H name). now right.
Qed.

(** X7. When no entry is at High or Medium (entries at Low, or at any
    other string), the overall confidence is Low, whatever the number of
    entries. *)
Theorem X7_no_high_no_medium_is_low :
  forall er,
    (forall name e, In (name, e) er ->
       Enhanced.confidence e <> "High" /\ Enhanced.confidence e <> "Medium") ->
    calculate_overall_confidence er = "Low".
Proof.
  intros er H. rewrite calculate_overall_confidence_policy.
  destruct er as [|item er]; [reflexivity|].
  rewrite !count_at_zero.
  - cbv zeta. cbn [List.length Z.of_nat].
    unfold true_div, Z_as_SF, SFdiv. reflexivity.
  - intros name e Hin. apply (H name e Hin).
  - intros name e Hin. apply (H name e Hin).
Qed.

Lemma X7_no_high_no_medium_is_low_witness :
  let er := [("a", Enhanced.mk (PStr "x") "Low" [] false None);
             ("b", Enhanced.mk (PStr "y") "Unknown" [] true None)] in
  calculate_overall_confidence er = "Low".
Proof.
  intros er. apply X7_no_high_no_medium_is_low.
  intros name e [H|[H|[]]]; injection H as _ <-; cbn; split; discriminate.
Defined.

(** X6. Against a template that declares no field (no [fields] key, or
    an empty one), [enhance_confidence_with_template] raises nothing:
    every field of the data whose name does not begin with an underscore
    comes out invalid at Low with the single reasoning "Field '<name>' not
    found in template", and the overall confidence of the output is
    Low. *)
Theorem X6_template_without_fields :
  forall float_of_str float_repr re_match data tpl,
    template_fields tpl = [] ->
    exists out,
      enhance_confidence_with_template float_of_str float_repr re_match
        data tpl = Ok out
      /\ (forall name e, In (name, e) out ->
            e = Enhanced.mk (Enhanced.value e) "Low"
                  [("Field '" ++ name ++ "' not found in template")%string]
                  false None)
      /\ (forall name,
            In name (keys out) <->
            In name (keys data) /\ startswith "_" name = false)
      /\ calculate_overall_confidence out = "Low".
Proof.
  intros fos fr rm data tpl Hf.
  assert (V : forall name value,
            validate_against_template fos fr rm name value tpl =
            Ok (Validation.mk false "Low"
                  [("Field '" ++ name ++ "' not found in template")%string]
                  PNone)).
  { intros name value. unfold validate_against_template. now rewrite Hf. }
  destruct (process_fields_returns fos fr rm tpl data)
    with (acc := @nil (string * Enhanced.t)) as [processed Hp].
  { intros name value _ _. eexists. apply V. }
  exists processed.
  assert (A : Forall (fun item =>
                snd item = Enhanced.mk (Enhanced.value (snd item)) "Low"
                  [("Field '" ++ fst item ++ "' not found in template")%string]
                  false None) processed).
  { apply (process_fields_Forall fos fr rm tpl _ data) with (acc := []);
      [|constructor|exact Hp].
    intros name value r _ W. rewrite V in W. injection W as <-. reflexivity. }
  rewrite Forall_forall in A.
  split.
  { apply enhance_inv. exists processed. split; [exact Hp|]. now rewrite Hf. }
  split; [intros name e Hin; exact (A _ Hin)|].
  split.
  { intros name. rewrite (process_fields_keys _ _ _ _ _ _ _ Hp name).
    simpl. tauto. }
  apply X7_no_high_no_medium_is_low.
  intros name e Hin. pose proof (A _ Hin) as E. cbn [fst snd] in E.
  rewrite E. cbn. split; discriminate.
Qed.

Lemma X6_template_without_fields_witness :
  template_fields (mk_template None) = []
  /\ exists out,
       enhance_confidence_with_template Sample.float_of_str Sample.float_repr
         Sample.re_match [("total", PInt 12); ("_raw", PStr "12")]
         (mk_template None) = Ok out
       /\ (forall name,
             In name (keys out) <->
             In name ["total"; "_raw"] /\ startswith "_" name = false)
       /\ calculate_overall_confidence out = "Low".
Proof.
  split; [reflexivity|].
  destruct (X6_template_without_fields Sample.float_of_str Sample.float_repr
              Sample.re_match [("total", PInt 12); ("_raw", PStr "12")]
              (mk_template None) eq_refl) as [out (H & _ & K & L)].
  exists out. split; [exact H|]. split; [exact K|exact L].
Defined.

(** The number of elements a test accepts does not depend on their
    order. *)
Lemma length_filter_Permutation {A : Type} (f : A -> bool) l l' :
  Permutation l l' ->
  List.length (filter f l) = List.length (filter f l').
Proof.
  induction 1 as [|x l l' _ IH|x y l|l l' l'' _ IH1 _ IH2]; simpl.
  - reflexivity.
  - destruct (f x); simpl; now rewrite IH.
  - destruct (f x), (f y); reflexivity.
  - now rewrite IH1.
Qed.

(** X8. The overall confidence does not depend on the order of the
    entries (nor on their names): it is the same on any rearrangement of
    the mapping. *)
Theorem X8_overall_confidence_order_free :
  forall er er',
    Permutation (confidences er) (confidences er') ->
    calculate_overall_confidence er = calculate_overall_confidence er'.
Proof.
  intros er er' P.
  rewrite !calculate_overall_confidence_confidences.
  destruct (confidences er) as [|c cs] eqn:E.
  - apply Permutation_nil in P. now rewrite P.
  - destruct (confidences er') as [|c' cs'] eqn:E'.
    + apply Permutation_sym, Permutation_nil in P. discriminate P.
    + cbv zeta.
      rewrite (Permutation_length P).
      now rewrite !(length_filter_Permutation _ _ _ P).
Qed.

Lemma X8_overall_confidence_order_free_witness :
  let e c := Enhanced.mk PNone c [] false None in
  let er := [("a", e "High"); ("b", e "Low"); ("c", e "High")] in
  let er' := [("x", e "Low"); ("y", e "High"); ("z", e "High")] in
  Permutation (confidences er) (confidences er')
  /\ calculate_overall_confidence er = calculate_overall_confidence er'.
Proof.
  intros e er er'.
  assert (P : Permutation (confidences er) (confidences er')).
  { cbn. apply perm_swap. }
  split; [exact P|].
  exact (X8_overall_confidence_order_free er er' P).
Defined.

(** ** Range and length checks *)

(** X9. A value that [float] converts to NaN passes every range check:
    on a number-typed field whose bounds are numbers, it is valid at High
    whatever min and max are, because no comparison with NaN holds. *)
Theorem X9_nan_passes_every_range :
  forall float_of_str float_repr re_match name value tpl fd,
    dict_get name (template_fields tpl) = Some fd ->
    lower (get_or (fd_type fd) "string") = "number" ->
    value <> PStr "" ->
    py_float float_of_str value = Ok S754_nan ->
    bound_ok (fd_min fd) = true -> bound_ok (fd_max fd) = true ->
    validate_against_template float_of_str float_repr re_match name value tpl =
    Ok (Validation.mk true "High" ["Type validation: Valid number"] PNone).
Proof.
  intros fos fr rm name value tpl fd Hfd E Hne Hnan Hmin Hmax.
  assert (Hempty : is_empty value = false).
  { destruct value as [| | | |[]|]; try reflexivity.
    - discriminate Hnan.
    - now contradiction Hne. }
  assert (Hnone : is_none value = false).
  { unfold is_empty in Hempty. now apply orb_false_elim in Hempty. }
  unfold validate_against_template.
  rewrite Hfd, Hempty, andb_false_r.
  unfold validate_field_type. rewrite Hnone, E.
  cbn [String.eqb Ascii.eqb Bool.eqb andb]. rewrite Hnan.
  cbn [bind except_value_type negb].
  unfold additional_validations. rewrite E.
  cbn [String.eqb Ascii.eqb Bool.eqb andb].
  unfold check_number. rewrite Hnan. cbn [bind].
  assert (B : forall bound, bound_ok bound = true ->
            below (NFloat S754_nan) bound = Ok false
            /\ above (NFloat S754_nan) bound = Ok false).
  { intros [[]|]; cbn; intros Hb; try discriminate Hb; split; reflexivity. }
  rewrite (proj1 (B _ Hmin)). cbn [bind].
  rewrite (proj2 (B _ Hmax)). reflexivity.
Qed.

Lemma X9_nan_passes_every_range_witness :
  let amount := mk_field_def (Some "number") None None (Some (PInt 0))
                             (Some (PInt 1000)) None None None in
  let tpl := mk_template (Some [("amount", amount)]) in
  py_float Sample.float_of_str (PFloat S754_nan) = Ok S754_nan
  /\ validate_against_template Sample.float_of_str Sample.float_repr
       Sample.re_match "amount" (PFloat S754_nan) tpl =
     Ok (Validation.mk true "High" ["Type validation: Valid number"] PNone).
Proof.
  intros amount tpl.
  split; [reflexivity|].
  apply (X9_nan_passes_every_range _ _ _ "amount" (PFloat S754_nan) tpl amount);
    try reflexivity.
  discriminate.
Defined.

(** X10. On a string-typed field without pattern whose length bounds
    are integers that [str] renders (at most 4300 digits), a non-empty
    string is judged by its length alone: too short is tested first, then
    too long; either gives an invalid result at Medium with no suggested
    correction, and a length within the bounds gives valid at High. *)
Theorem X10_string_length_bounds :
  forall float_of_str float_repr re_match name s tpl fd lo hi,
    dict_get name (template_fields tpl) = Some fd ->
    lower (get_or (fd_type fd) "string") = "string" ->
    s <> "" ->
    fd_min_length fd = option_map PInt lo ->
    fd_max_length fd = option_map PInt hi ->
    fd_pattern fd = None ->
    bound_renders lo -> bound_renders hi ->
    validate_against_template float_of_str float_repr re_match name (PStr s) tpl
    = Ok
        match lo, hi with
        | Some a, _ =>
            if len s <? a then
              Validation.mk false "Medium"
                ["Type validation: Valid string";
                 ("String is too short (min " ++ str_of_Z a ++ " characters)")%string]
                PNone
            else
              match hi with
              | Some b =>
                  if b <? len s then
                    Validation.mk false "Medium"
                      ["Type validation: Valid string";
                       ("String is too long (max " ++ str_of_Z b
                        ++ " characters)")%string]
                      PNone
                  else Validation.mk true "High"
                         ["Type validation: Valid string"] PNone
              | None => Validation.mk true "High"
                          ["Type validation: Valid string"] PNone
              end
        | None, Some b =>
            if b <? len s then
              Validation.mk false "Medium"
                ["Type validation: Valid string";
                 ("String is too long (max " ++ str_of_Z b ++ " characters)")%string]
                PNone
            else Validation.mk true "High" ["Type validation: Valid string"] PNone
        | None, None =>
            Validation.mk true "High" ["Type validation: Valid string"] PNone
        end.
Proof.
  intros fos fr rm name s tpl fd lo hi Hfd E Hne Hlo Hhi Hpat _ _.
  assert (Hempty : is_empty (PStr s) = false).
  { destruct s; [now contradiction Hne|reflexivity]. }
  unfold validate_against_template.
  rewrite Hfd, Hempty, andb_false_r.
  unfold validate_field_type. rewrite E.
  cbn [is_none String.eqb Ascii.eqb Bool.eqb andb is_str negb bind
       except_value_type].
  unfold additional_validations. rewrite E.
  cbn [String.eqb Ascii.eqb Bool.eqb andb].
  unfold check_string. rewrite Hlo, Hhi, Hpat.
  cbn [py_str pattern_fails].
  destruct lo as [a|], hi as [b|];
    cbn [option_map below above num_lt num_gt cmp_num cmp_num_Z bind get_or
         py_str];
    unfold Z.ltb; rewrite ?(Z.compare_antisym (len s));
    repeat match goal with
           | |- context [len s ?= ?x] => destruct (len s ?= x)
           end; reflexivity.
Qed.

Lemma X10_string_length_bounds_witness :
  let code := mk_field_def (Some "String") None None None None
                           (Some (PInt 2)) (Some (PInt 4)) None in
  let tpl := mk_template (Some [("code", code)]) in
  dict_get "code" (template_fields tpl) = Some code
  /\ "ABCDE" <> ""
  /\ bound_renders (Some 2) /\ bound_renders (Some 4)
  /\ validate_against_template Sample.float_of_str Sample.float_repr
       Sample.re_match "code" (PStr "ABCDE") tpl =
     Ok (Validation.mk false "Medium"
           ["Type validation: Valid string";
            "String is too long (max 4 characters)"] PNone).
Proof.
  intros code tpl.
  assert (Hne : "ABCDE" <> "") by discriminate.
  assert (R2 : bound_renders (Some 2)) by (vm_compute; reflexivity).
  assert (R4 : bound_renders (Some 4)) by (vm_compute; reflexivity).
  split; [reflexivity|]. split; [exact Hne|].
  split; [exact R2|]. split; [exact R4|].
  exact (X10_string_length_bounds Sample.float_of_str Sample.float_repr
           Sample.re_match "code" "ABCDE" tpl code (Some 2) (Some 4)
           eq_refl eq_refl Hne eq_refl eq_refl eq_refl R2 R4).
Defined.

(** * Properties of the extraction module *)

(** ** Dictionaries keyed by strings *)

Section ResponseProcessing.
Import MetadataExtraction.

Lemma key_eqb_str s k : key_eqb (OStr s) k = true -> k = OStr s.
Proof.
  destruct k; cbn; try discriminate.
  intros E. apply String.eqb_eq in E. now subst.
Qed.

Lemma oget_oset_same s v d : oget (OStr s) (oset (OStr s) v d) = Some v.
Proof.
  induction d as [|[k0 v0] d IH]; cbn [oset oget].
  - cbn. now rewrite String.eqb_refl.
  - destruct (key_eqb (OStr s) k0) eqn:E; cbn [oget]; rewrite E;
      [reflexivity|exact IH].
Qed.

Lemma oget_oset_other s s' v d :
  s <> s' -> oget (OStr s) (oset (OStr s') v d) = oget (OStr s) d.
Proof.
  intros Hne.
  induction d as [|[k0 v0] d IH]; cbn [oset oget].
  - cbn. destruct (String.eqb_spec s s'); [contradiction|reflexivity].
  - destruct (key_eqb (OStr s') k0) eqn:E; cbn [oget].
    + apply key_eqb_str in E. subst k0. cbn.
      destruct (String.eqb_spec s s'); [contradiction|reflexivity].
    + destruct (key_eqb (OStr s) k0); [reflexivity|exact IH].
Qed.

Lemma oset_fresh k v d : oget k d = None -> oset k v d = d ++ [(k, v)].
Proof.
  induction d as [|[k0 v0] d IH]; cbn [oset oget app]; [reflexivity|].
  destruct (key_eqb k k0); [discriminate|].
  intros H. f_equal. now apply IH.
Qed.

Lemma oset_not_nil k v d : oset k v d <> [].
Proof.
  destruct d as [|[k0 v0] d]; cbn [oset]; [discriminate|].
  destruct (key_eqb k k0); discriminate.
Qed.

Lemma oset_Forall (P : obj * obj -> Prop) k v d :
  Forall P d -> P (k, v) -> (forall k0 v0, P (k0, v0) -> P (k0, v)) ->
  Forall P (oset k v d).
Proof.
  intros Hd Hk Hv.
  induction d as [|[k0 v0] d IH]; cbn [oset].
  - constructor; [exact Hk|constructor].
  - inversion Hd as [|? ? Hhd Htl]; subst.
    destruct (key_eqb k k0); constructor; auto.
    now apply (Hv k0 v0).
Qed.

(** ** The loops of [_process_ai_response] *)

(** What a stored binding looks like: a hashable key and a dictionary of
    value, confidence and reasoning. *)
Let stored (binding : obj * obj) : Prop :=
  hashable (fst binding) = true /\ is_standard_entry (snd binding).

Lemma entry_of_dict_standard d : is_standard_entry (entry_of_dict d).
Proof. unfold entry_of_dict. do 3 eexists. reflexivity. Qed.

Lemma entry_of_value_standard v : is_standard_entry (entry_of_value v).
Proof.
  unfold entry_of_value.
  destruct v; try (do 3 eexists; reflexivity).
  destruct (omem _ _); [apply entry_of_dict_standard|].
  do 3 eexists. reflexivity.
Qed.

Lemma setitem_stored k v d d' :
  Forall stored d -> is_standard_entry v -> setitem k v d = Ok d' ->
  Forall stored d' /\ d' <> [].
Proof.
  unfold setitem. intros Hd Hv.
  destruct (hashable k) eqn:Hk; [|discriminate].
  intros [= <-]. split; [|apply oset_not_nil].
  apply oset_Forall; [exact Hd|now split|].
  intros k0 v0 [Hk0 _]. now split.
Qed.

Lemma collect_fields_stored fields : forall acc res,
  Forall stored acc -> collect_fields fields acc = Ok res ->
  Forall stored res.
Proof.
  induction fields as [|field fields IH]; intros acc res Hacc H.
  - injection H as <-. exact Hacc.
  - cbn [collect_fields] in H.
    destruct field as [| | | | | |f]; try (now apply (IH acc)).
    destruct (oget (OStr "key") f) as [key|]; [|now apply (IH acc)].
    destruct (setitem key (entry_of_dict f) acc) as [acc'|] eqn:S;
      [|discriminate H].
    cbn [bind] in H.
    apply (setitem_stored _ _ _ _ Hacc (entry_of_dict_standard f)) in S.
    now apply (IH acc').
Qed.

Lemma collect_direct_stored items : forall acc res,
  Forall stored acc -> collect_direct items acc = Ok res ->
  Forall stored res.
Proof.
  induction items as [|[key value] items IH]; intros acc res Hacc H.
  - injection H as <-. exact Hacc.
  - cbn [collect_direct] in H.
    destruct (setitem key (entry_of_value value) acc) as [acc'|] eqn:S;
      [|discriminate H].
    cbn [bind] in H.
    apply (setitem_stored _ _ _ _ Hacc (entry_of_value_standard value)) in S.
    now apply (IH acc').
Qed.

(** The three ways [_process_ai_response] returns. *)
Lemma process_ai_response_cases response_data :
  (is_dict response_data = true
   /\ _process_ai_response response_data = response_data)
  \/ _process_ai_response response_data =
     ODict [(OStr "error", OStr "Invalid response format")]
  \/ exists processed,
       _process_ai_response response_data = ODict processed
       /\ Forall stored processed.
Proof.
  unfold _process_ai_response.
  destruct (process_try response_data) as [result|e] eqn:T.
  2:{ destruct (is_dict response_data); [left; now split|right; now left]. }
  unfold process_try in T.
  destruct (contains "answer" response_data) as [has|]; [|discriminate T].
  cbn [bind] in T.
  destruct (if has then _ else _) as [answer|]; [|discriminate T].
  cbn [bind] in T.
  match type of T with
  | bind ?c _ = _ => destruct c as [processed|] eqn:C; [|discriminate T]
  end.
  cbn [bind] in T.
  assert (Hstored : Forall stored processed).
  { destruct answer as [[| | | | | |answer_data]|];
      try (injection C as <-; constructor).
    destruct (oget (OStr "fields") answer_data) as [[| | | | |fields|]|];
      try (now apply (collect_direct_stored _ _ _ (Forall_nil _) C)).
    now apply (collect_fields_stored _ _ _ (Forall_nil _) C). }
  destruct processed as [|binding processed].
  - destruct response_data; injection T as <-;
      try (right; right; exists []; split; [reflexivity|constructor]).
    left. now split.
  - right. right. exists (binding :: processed).
    split; [|exact Hstored].
    now destruct response_data; injection T as <-.
Qed.
(** X11. Whatever the response is, [_process_ai_response] returns a
    dictionary, in one of three shapes: the response itself (only when the
    response is a dictionary), the dictionary
    {error: "Invalid response format"}, or a dictionary whose values are
    all dictionaries of exactly value, confidence and reasoning, under
    hashable keys. *)
Theorem X11_process_ai_response_shapes :
  forall response_data,
    is_dict (_process_ai_response response_data) = true
    /\ ((is_dict response_data = true
         /\ _process_ai_response response_data = response_data)
        \/ _process_ai_response response_data =
           ODict [(OStr "error", OStr "Invalid response format")]
        \/ exists processed,
             _process_ai_response response_data = ODict processed
             /\ forall key entry, In (key, entry) processed ->
                  hashable key = true
                  /\ exists value confidence reasoning,
                       entry = ODict [(OStr "value", value);
                                      (OStr "confidence", confidence);
                                      (OStr "reasoning", reasoning)]).
Proof.
  intros response_data.
  destruct (process_ai_response_cases response_data)
    as [[Hd E]|[E|[processed [E Hs]]]].
  - split; [now rewrite E|]. left. now split.
  - split; [now rewrite E|]. right. now left.
  - split; [now rewrite E|]. right. right. exists processed.
    split; [exact E|]. intros key entry Hin.
    rewrite Forall_forall in Hs. exact (Hs _ Hin).
Qed.

(** The fields array, when every key is a string. *)
Lemma collect_fields_lookup fields :
  (forall field key, In field fields -> field_key field = Some key ->
     exists s, key = OStr s) ->
  forall acc,
    exists res,
      collect_fields fields acc = Ok res
      /\ (forall name,
            oget (OStr name) res =
            match last_with_key name fields with
            | Some field => Some (entry_of_field field)
            | None => oget (OStr name) acc
            end)
      /\ (res = [] ->
          acc = [] /\ forall field, In field fields -> field_key field = None).
Proof.
  induction fields as [|field fields IH]; intros Hkeys acc.
  - exists acc. split; [reflexivity|]. split; [reflexivity|].
    intros ->. split; [reflexivity|]. intros field [].
  - assert (Hrest : forall field key, In field fields ->
              field_key field = Some key -> exists s, key = OStr s).
    { intros f k Hin. apply Hkeys. now right. }
    cbn [collect_fields last_with_key].
    destruct (field_key field) as [key|] eqn:K.
    + destruct (Hkeys field key (or_introl eq_refl) K) as [s ->].
      destruct field as [| | | | | |f]; try discriminate K.
      cbn [field_key] in K. rewrite K. cbn [setitem hashable bind].
      destruct (IH Hrest (oset (OStr s) (entry_of_dict f) acc))
        as [res (Hres & Hget & Hnil)].
      exists res. split; [exact Hres|]. split.
      * intros name. rewrite Hget.
        destruct (last_with_key name fields); [reflexivity|].
        destruct (String.eqb_spec s name) as [->|Hne].
        -- now rewrite oget_oset_same.
        -- rewrite oget_oset_other by congruence. reflexivity.
      * intros E. destruct (Hnil E) as [E' _].
        now apply oset_not_nil in E'.
    + destruct (IH Hrest acc) as [res (Hres & Hget & Hnil)].
      exists res. split.
      * destruct field as [| | | | | |f]; try exact Hres.
        cbn [field_key] in K. now rewrite K.
      * split.
        -- intros name. rewrite Hget.
           now destruct (last_with_key name fields).
        -- intros E. destruct (Hnil E) as [E' Hno]. split; [exact E'|].
           intros f [<-|Hin]; [exact K|now apply Hno].
Qed.

(** The processing of a response whose answer is a dictionary. *)
Lemma process_try_answer d answer_data :
  oget (OStr "answer") d = Some (ODict answer_data) ->
  process_try (ODict d) =
  bind (match oget (OStr "fields") answer_data with
        | Some (OList fields) => collect_fields fields []
        | _ => collect_direct answer_data []
        end)
       (fun processed =>
          match processed with
          | [] => Ok (ODict d)
          | _ => Ok (ODict processed)
          end).
Proof.
  intros H. unfold process_try. cbn [contains subscript].
  unfold omem. rewrite H. reflexivity.
Qed.

Lemma last_with_key_dict name fields field :
  last_with_key name fields = Some field -> exists f, field = ODict f.
Proof.
  induction fields as [|g fields IH]; cbn [last_with_key]; [discriminate|].
  destruct (last_with_key name fields) as [later|].
  - intros [= <-]. now apply IH.
  - destruct g as [| | | | | |f]; cbn [field_key]; try discriminate.
    destruct (oget (OStr "key") f) as [[| | | |key| |]|]; try discriminate.
    destruct (key =? name)%string; [|discriminate].
    intros [= <-]. now exists f.
Qed.

(** Elements without a key leave the collected entries as they are. *)
Lemma collect_fields_no_key fields :
  (forall field, In field fields -> field_key field = None) ->
  forall acc, collect_fields fields acc = Ok acc.
Proof.
  induction fields as [|field fields IH]; intros Hno acc; [reflexivity|].
  cbn [collect_fields].
  assert (K : field_key field = None) by (apply Hno; now left).
  assert (Hrest : forall g, In g fields -> field_key g = None).
  { intros g Hin. apply Hno. now right. }
  destruct field as [| | | | | |f]; try apply (IH Hrest).
  cbn [field_key] in K. rewrite K. apply (IH Hrest).
Qed.

(** X12. When the answer of the response holds a list under [fields]
    and every key in it is a string: if some element has a key, the result
    has one entry per key, the one of the last element of the list with
    that key, built from its value (null when absent), its confidence
    ("Medium" when absent) and its reasoning ("No reasoning provided" when
    absent), and elements that are not dictionaries or have no key are
    skipped; if no element has a key (an empty list among them), the
    result is the response itself. *)
Theorem X12_fields_array_last_wins :
  forall d answer_data fields,
    oget (OStr "answer") d = Some (ODict answer_data) ->
    oget (OStr "fields") answer_data = Some (OList fields) ->
    (forall field key, In field fields -> field_key field = Some key ->
       exists s, key = OStr s) ->
    ((exists field, In field fields /\ field_key field <> None) ->
     exists processed,
       _process_ai_response (ODict d) = ODict processed
       /\ forall name,
            oget (OStr name) processed =
            match last_with_key name fields with
            | Some (ODict f) =>
                Some (ODict
                  [(OStr "value", get_or (oget (OStr "value") f) ONone);
                   (OStr "confidence",
                    get_or (oget (OStr "confidence") f) (OStr "Medium"));
                   (OStr "reasoning",
                    get_or (oget (OStr "reasoning") f)
                           (OStr "No reasoning provided"))])
            | _ => None
            end)
    /\ ((forall field, In field fields -> field_key field = None) ->
        _process_ai_response (ODict d) = ODict d).
Proof.
  intros d answer_data fields Ha Hf Hkeys. split.
  - intros [field [Hin Hkey]].
    destruct (collect_fields_lookup fields Hkeys [])
      as [res (Hres & Hget & Hnil)].
    exists res.
    assert (Hne : res <> []).
    { intros E. destruct (Hnil E) as [_ Hno]. now apply Hkey, Hno. }
    split.
    + unfold _process_ai_response.
      rewrite (process_try_answer d answer_data Ha), Hf, Hres. cbn [bind].
      destruct res; [now contradiction Hne|reflexivity].
    + intros name. rewrite Hget. cbn [oget].
      destruct (last_with_key name fields) as [field'|] eqn:L; [|reflexivity].
      destruct (last_with_key_dict _ _ _ L) as [f ->]. reflexivity.
  - intros Hno. unfold _process_ai_response.
    rewrite (process_try_answer d answer_data Ha), Hf.
    now rewrite (collect_fields_no_key fields Hno).
Qed.
Lemma X12_fields_array_last_wins_witness :
  let fields :=
    [ODict [(OStr "key", OStr "total"); (OStr "value", OInt 10)];
     OStr "noise";
     ODict [(OStr "key", OStr "total"); (OStr "value", OInt 12);
            (OStr "confidence", OStr "High")]] in
  let answer_data := [(OStr "fields", OList fields)] in
  let d := [(OStr "answer", ODict answer_data)] in
  oget (OStr "answer") d = Some (ODict answer_data)
  /\ (exists processed,
        _process_ai_response (ODict d) = ODict processed
        /\ oget (OStr "total") processed =
           Some (ODict [(OStr "value", OInt 12);
                        (OStr "confidence", OStr "High");
                        (OStr "reasoning", OStr "No reasoning provided")]))
  /\ (let unkeyed :=
        [(OStr "answer",
          ODict [(OStr "fields", OList [OStr "noise"; ODict []])])] in
      _process_ai_response (ODict unkeyed) = ODict unkeyed).
Proof.
  intros fields answer_data d.
  split; [reflexivity|]. split.
  - destruct (X12_fields_array_last_wins d answer_data fields eq_refl eq_refl)
      as [Keyed _].
    + intros field key [<-|[<-|[<-|[]]]]; cbn; intros [= <-]; eexists;
        reflexivity.
    + destruct Keyed as [processed [E G]].
      * eexists. split; [left; reflexivity|]. discriminate.
      * exists processed. split; [exact E|]. exact (G "total").
  - intros unkeyed.
    destruct (X12_fields_array_last_wins unkeyed
                [(OStr "fields", OList [OStr "noise"; ODict []])]
                [OStr "noise"; ODict []] eq_refl eq_refl)
      as [_ Unkeyed].
    + intros field key [<-|[<-|[]]]; cbn; discriminate.
    + apply Unkeyed. intros field [<-|[<-|[]]]; reflexivity.
Defined.

(** The direct keys of an answer, when they are distinct strings. *)
Lemma oget_app_None k d k' v :
  oget k d = None -> key_eqb k k' = false -> oget k (d ++ [(k', v)]) = None.
Proof.
  induction d as [|[k0 v0] d IH]; cbn [app oget].
  - intros _ ->. reflexivity.
  - destruct (key_eqb k k0); [discriminate|]. exact IH.
Qed.

Lemma collect_direct_fresh (items : list (string * obj)) : forall acc,
  NoDup (map fst items) ->
  (forall name, In name (map fst items) -> oget (OStr name) acc = None) ->
  collect_direct (map (fun item => (OStr (fst item), snd item)) items) acc =
  Ok (acc ++ map (fun item => (OStr (fst item), entry_of_value (snd item)))
                 items).
Proof.
  induction items as [|[name value] items IH]; intros acc Hnd Hfresh.
  - cbn. now rewrite app_nil_r.
  - cbn [map fst snd collect_direct setitem hashable bind].
    inversion Hnd as [|? ? Hnin Hnd']; subst.
    rewrite oset_fresh by (apply Hfresh; now left).
    rewrite IH.
    + now rewrite <- app_assoc.
    + exact Hnd'.
    + intros other Hin. apply oget_app_None.
      * apply Hfresh. now right.
      * cbn. destruct (String.eqb_spec other name) as [->|]; [|reflexivity].
        cbn [map fst] in Hnin. contradiction.
Qed.

(** X13. When the answer of the response is a dictionary with distinct
    string keys and no list under [fields], the result has exactly the
    keys of the answer, in order: a value that is a dictionary holding
    [value] is read as an entry (confidence "Medium" and reasoning "No
    reasoning provided" when absent); any other value is wrapped with
    confidence "Medium" and reasoning "No confidence information
    provided". *)
Theorem X13_direct_keys_all_kept :
  forall d (answer : list (string * obj)),
    oget (OStr "answer") d =
      Some (ODict (map (fun item => (OStr (fst item), snd item)) answer)) ->
    NoDup (map fst answer) ->
    answer <> [] ->
    (forall fields, ~ In ("fields", OList fields) answer) ->
    _process_ai_response (ODict d) =
    ODict (map (fun item =>
                  (OStr (fst item),
                   match snd item with
                   | ODict v =>
                       if omem (OStr "value") v then
                         ODict
                           [(OStr "value", get_or (oget (OStr "value") v) ONone);
                            (OStr "confidence",
                             get_or (oget (OStr "confidence") v) (OStr "Medium"));
                            (OStr "reasoning",
                             get_or (oget (OStr "reasoning") v)
                                    (OStr "No reasoning provided"))]
                       else
                         ODict
                           [(OStr "value", snd item);
                            (OStr "confidence", OStr "Medium");
                            (OStr "reasoning",
                             OStr "No confidence information provided")]
                   | _ =>
                       ODict
                         [(OStr "value", snd item);
                          (OStr "confidence", OStr "Medium");
                          (OStr "reasoning",
                           OStr "No confidence information provided")]
                   end)) answer).
Proof.
  intros d answer Ha Hnd Hne Hnf.
  unfold _process_ai_response.
  rewrite (process_try_answer d _ Ha).
  assert (F : forall fields,
            oget (OStr "fields")
                 (map (fun item => (OStr (fst item), snd item)) answer)
            <> Some (OList fields)).
  { intros fields G. apply (Hnf fields). clear - G.
    induction answer as [|[k v] answer IH];
      cbn [map oget fst snd key_eqb] in G; [discriminate|].
    destruct (String.eqb_spec "fields" k) as [<-|_].
    - injection G as ->. now left.
    - right. now apply IH. }
  assert (C : match oget (OStr "fields")
                      (map (fun item => (OStr (fst item), snd item)) answer) with
              | Some (OList fields) => collect_fields fields []
              | _ => collect_direct
                       (map (fun item => (OStr (fst item), snd item)) answer) []
              end =
              collect_direct
                (map (fun item => (OStr (fst item), snd item)) answer) []).
  { destruct (oget (OStr "fields") _) as [[| | | | |fields|]|] eqn:G;
      try reflexivity.
    now contradiction (F fields). }
  rewrite C, (collect_direct_fresh answer [] Hnd) by reflexivity.
  cbn [bind app].
  destruct answer as [|item answer]; [now contradiction Hne|].
  reflexivity.
Qed.

Lemma X13_direct_keys_all_kept_witness :
  let answer :=
    [("total", OInt 12);
     ("date", ODict [(OStr "value", OStr "2023-01-01");
                     (OStr "confidence", OStr "High")])] in
  let d := [(OStr "answer",
             ODict (map (fun item => (OStr (fst item), snd item)) answer))] in
  NoDup (map fst answer)
  /\ _process_ai_response (ODict d) =
     ODict
       [(OStr "total",
         ODict [(OStr "value", OInt 12); (OStr "confidence", OStr "Medium");
                (OStr "reasoning", OStr "No confidence information provided")]);
        (OStr "date",
         ODict [(OStr "value", OStr "2023-01-01");
                (OStr "confidence", OStr "High");
                (OStr "reasoning", OStr "No reasoning provided")])].
Proof.
  intros answer d.
  assert (Hnd : NoDup (map fst answer)).
  { repeat constructor; simpl; intuition discriminate. }
  split; [exact Hnd|].
  rewrite (X13_direct_keys_all_kept d answer eq_refl Hnd).
  - reflexivity.
  - discriminate.
  - intros fields [H|[H|[]]]; discriminate H.
Defined.

(** A key that is a list or a dictionary stops the loop over the fields
    array. *)
Lemma collect_fields_unhashable fields :
  (exists field key,
     In field fields /\ field_key field = Some key /\ hashable key = false) ->
  forall acc, exists e, collect_fields fields acc = Raise e.
Proof.
  induction fields as [|field fields IH]; intros [bad [key [Hin [K Hh]]]] acc.
  - destruct Hin.
  - cbn [collect_fields].
    destruct Hin as [->|Hin].
    + destruct bad as [| | | | | |f]; try discriminate K.
      cbn [field_key] in K. rewrite K. unfold setitem. rewrite Hh.
      eexists. reflexivity.
    + assert (Hrest : exists field key, In field fields
                /\ field_key field = Some key /\ hashable key = false).
      { now exists bad, key. }
      destruct field as [| | | | | |f]; try apply (IH Hrest).
      destruct (oget (OStr "key") f) as [k|]; [|apply (IH Hrest)].
      destruct (setitem k (entry_of_dict f) acc) as [acc'|e];
        [cbn [bind]; apply (IH Hrest)|].
      exists e. reflexivity.
Qed.

(** X14. One element of the fields array whose key is a list or a
    dictionary makes [_process_ai_response] give back the response
    unchanged: the entries of the other elements are not returned. *)
Theorem X14_unhashable_key_returns_response :
  forall d answer_data fields field key,
    oget (OStr "answer") d = Some (ODict answer_data) ->
    oget (OStr "fields") answer_data = Some (OList fields) ->
    In field fields -> field_key field = Some key -> hashable key = false ->
    _process_ai_response (ODict d) = ODict d.
Proof.
  intros d answer_data fields field key Ha Hf Hin K Hh.
  unfold _process_ai_response.
  rewrite (process_try_answer d answer_data Ha), Hf.
  destruct (collect_fields_unhashable fields) with (acc := @nil (obj * obj))
    as [e ->].
  - now exists field, key.
  - reflexivity.
Qed.

Lemma X14_unhashable_key_returns_response_witness :
  let good := ODict [(OStr "key", OStr "total"); (OStr "value", OInt 12)] in
  let bad := ODict [(OStr "key", OList [OStr "a"]); (OStr "value", OInt 1)] in
  let answer_data := [(OStr "fields", OList [good; bad])] in
  let d := [(OStr "answer", ODict answer_data)] in
  In bad [good; bad]
  /\ field_key bad = Some (OList [OStr "a"])
  /\ _process_ai_response (ODict d) = ODict d.
Proof.
  intros good bad answer_data d.
  assert (Hin : In bad [good; bad]) by (right; now left).
  split; [exact Hin|]. split; [reflexivity|].
  exact (X14_unhashable_key_returns_response d answer_data [good; bad] bad
           (OList [OStr "a"]) eq_refl eq_refl Hin eq_refl eq_refl).
Defined.
End ResponseProcessing.

(** ** The two extraction calls *)

Section ExtractionCalls.
Import MetadataExtraction.

Variable post : string -> obj -> obj -> Exc response.
Variable str_other : obj -> string.
Variable structured_system_message : string.
Variable freeform_system_message : string -> string.

Let structured :=
  extract_structured_metadata post str_other structured_system_message.
Let freeform :=
  extract_freeform_metadata post str_other freeform_system_message.

Lemma process_ai_response_is_dict response_data :
  is_dict (_process_ai_response response_data) = true.
Proof.
  destruct (process_ai_response_cases response_data)
    as [[Hd E]|[E|[processed [E _]]]]; now rewrite E.
Qed.

(** With a template, the request body is the base body and the
    template. *)
Lemma structured_request_body_template file_id fields metadata_template ai_model :
  truthy metadata_template = true ->
  structured_request_body structured_system_message file_id fields
    metadata_template ai_model =
  Ok (ODict (base_request_body file_id ai_model structured_system_message
             ++ [(OStr "metadata_template", metadata_template)])).
Proof.
  intros T. unfold structured_request_body. rewrite T. reflexivity.
Qed.

(** X15. With a metadata template, [extract_structured_metadata] never
    returns extracted metadata: its result is always a dictionary with an
    [error] message.  When the token is found and the call answers 200
    with a body that decodes, the message is the arity error of the call
    to [enhance_confidence_with_template], which is given three arguments
    and takes two. *)
Theorem X15_template_always_gives_error :
  forall c file_id fields metadata_template ai_model document_text,
    truthy metadata_template = true ->
    is_error (structured c file_id fields metadata_template ai_model
                document_text)
    /\ (forall token r response_data,
          get_access_token c = Ok token ->
          post api_url (headers_of str_other token)
            (ODict (base_request_body file_id ai_model structured_system_message
                    ++ [(OStr "metadata_template", metadata_template)]))
            = Ok r ->
          status_code r = 200 ->
          json r = Ok response_data ->
          structured c file_id fields metadata_template ai_model document_text
          = ODict [(OStr "error",
                    OStr "enhance_confidence_with_template() takes 2 positional arguments but 3 were given")]).
Proof.
  intros c file_id fields tpl ai_model doc T.
  unfold structured, extract_structured_metadata, extract_structured_try.
  rewrite (structured_request_body_template _ _ _ _ T), T.
  split.
  - destruct (get_access_token c) as [token|e]; cbn [bind error_of];
      [|do 2 eexists; reflexivity].
    destruct (post _ _ _) as [r|e]; cbn [bind error_of];
      [|do 2 eexists; reflexivity].
    destruct (negb (status_code r =? 200)); cbn [error_of];
      [do 2 eexists; reflexivity|].
    destruct (json r) as [response_data|e]; cbn [bind error_of];
      [|do 2 eexists; reflexivity].
    rewrite process_ai_response_is_dict. cbn [andb error_of].
    do 2 eexists. reflexivity.
  - intros token r response_data Htok Hpost Hstatus Hjson.
    rewrite Htok. cbn [bind]. rewrite Hpost. cbn [bind].
    rewrite Hstatus, Hjson. cbn [Z.eqb Pos.eqb negb bind].
    rewrite process_ai_response_is_dict. reflexivity.
Qed.

(** X16. The access token is looked up on [_oauth] first, and [auth] is
    consulted only when the client has no [_oauth] attribute.  Both calls
    return {error: "Could not retrieve access token from client"} when the
    client has neither attribute or when the token found is empty or null,
    and the attribute error of [_oauth] when [_oauth] has no
    [access_token], whatever [auth] holds.  No request is needed for
    these answers.  A client that has only [auth] gives the token of
    [auth] when it is there and not empty, and the same error when [auth]
    has no [access_token] or an empty one; a token of [_oauth] that is not
    empty is the one found, whatever [auth] holds. *)
Theorem X16_access_token_lookup :
  forall c file_id fields metadata_template prompt ai_model document_text,
    let no_token :=
      ODict [(OStr "error",
              OStr "Could not retrieve access token from client")] in
    (client_oauth c = None -> client_auth c = None ->
       structured c file_id fields metadata_template ai_model document_text
         = no_token
       /\ freeform c file_id prompt ai_model document_text = no_token)
    /\ (forall oauth token,
          client_oauth c = Some oauth ->
          holder_access_token oauth = Some token -> truthy token = false ->
          structured c file_id fields metadata_template ai_model document_text
            = no_token
          /\ freeform c file_id prompt ai_model document_text = no_token)
    /\ (forall oauth,
          client_oauth c = Some oauth -> holder_access_token oauth = None ->
          let attribute_error :=
            ODict [(OStr "error",
                    OStr ("'" ++ holder_class oauth
                          ++ "' object has no attribute 'access_token'")%string)]
          in
          structured c file_id fields metadata_template ai_model document_text
            = attribute_error
          /\ freeform c file_id prompt ai_model document_text
             = attribute_error)
    /\ (forall auth token,
          client_oauth c = None -> client_auth c = Some auth ->
          holder_access_token auth = Some token -> truthy token = true ->
          get_access_token c = Ok token)
    /\ (forall auth,
          client_oauth c = None -> client_auth c = Some auth ->
          holder_access_token auth = None
          \/ (exists token, holder_access_token auth = Some token
                            /\ truthy token = false) ->
          get_access_token c
            = Raise (ValueError "Could not retrieve access token from client")
          /\ structured c file_id fields metadata_template ai_model
               document_text = no_token
          /\ freeform c file_id prompt ai_model document_text = no_token)
    /\ (forall oauth token,
          client_oauth c = Some oauth ->
          holder_access_token oauth = Some token -> truthy token = true ->
          get_access_token c = Ok token).
Proof.
  intros c file_id fields tpl prompt ai_model doc no_token.
  unfold structured, freeform, extract_structured_metadata,
    extract_freeform_metadata, extract_structured_try, extract_freeform_try,
    get_access_token.
  split; [|split; [|split; [|split; [|split]]]].
  - intros -> ->. split; reflexivity.
  - intros oauth token -> -> T. cbn [bind]. rewrite T. split; reflexivity.
  - intros oauth -> ->. split; reflexivity.
  - intros auth token -> -> -> T. cbn [bind get_or]. now rewrite T.
  - intros auth -> -> [->|[token [-> T]]]; cbn [bind get_or].
    + repeat split; reflexivity.
    + rewrite T. repeat split; reflexivity.
  - intros oauth token -> -> T. cbn [bind]. now rewrite T.
Qed.

(** X17. When the call answers with a status other than 200, both
    extraction calls return {error: "Error in Box AI API call: <status>
    <reason>", details: <text of the response>}; the body of the response
    is not decoded. *)
Theorem X17_status_not_200 :
  forall c token r,
    get_access_token c = Ok token ->
    status_code r <> 200 ->
    let failure :=
      ODict [(OStr "error",
              OStr ("Error in Box AI API call: " ++ str_of_Z (status_code r)
                    ++ " " ++ reason r)%string);
             (OStr "details", OStr (text r))] in
    (forall file_id fields metadata_template ai_model document_text body,
       structured_request_body structured_system_message file_id fields
         metadata_template ai_model = Ok body ->
       post api_url (headers_of str_other token) body = Ok r ->
       structured c file_id fields metadata_template ai_model document_text
       = failure)
    /\ (forall file_id prompt ai_model document_text,
          post api_url (headers_of str_other token)
            (ODict (base_request_body file_id ai_model
                      (freeform_system_message prompt))) = Ok r ->
          freeform c file_id prompt ai_model document_text = failure).
Proof.
  intros c token r Htok Hstatus failure.
  assert (S : negb (status_code r =? 200) = true).
  { apply negb_true_iff. now apply Z.eqb_neq. }
  split.
  - intros file_id fields tpl ai_model doc body Hbody Hpost.
    unfold structured, extract_structured_metadata, extract_structured_try.
    rewrite Htok. cbn [bind]. rewrite Hbody. cbn [bind].
    rewrite Hpost. cbn [bind]. rewrite S. reflexivity.
  - intros file_id prompt ai_model doc Hpost.
    unfold freeform, extract_freeform_metadata, extract_freeform_try.
    rewrite Htok. cbn [bind]. rewrite Hpost. cbn [bind]. rewrite S.
    reflexivity.
Qed.

(** X18. Without a template, a 200 answer whose body decodes is
    returned through [_process_ai_response] and nothing else, by both
    calls: the structured call without template and the freeform call
    treat the same response alike, and the result is a dictionary. *)
Theorem X18_without_template_processes_response :
  forall c token r response_data,
    get_access_token c = Ok token ->
    status_code r = 200 ->
    json r = Ok response_data ->
    (forall file_id fields metadata_template ai_model document_text body,
       truthy metadata_template = false ->
       structured_request_body structured_system_message file_id fields
         metadata_template ai_model = Ok body ->
       post api_url (headers_of str_other token) body = Ok r ->
       structured c file_id fields metadata_template ai_model document_text
       = _process_ai_response response_data)
    /\ (forall file_id prompt ai_model document_text,
          post api_url (headers_of str_other token)
            (ODict (base_request_body file_id ai_model
                      (freeform_system_message prompt))) = Ok r ->
          freeform c file_id prompt ai_model document_text
          = _process_ai_response response_data)
    /\ is_dict (_process_ai_response response_data) = true.
Proof.
  intros c token r response_data Htok Hstatus Hjson.
  split; [|split; [|apply process_ai_response_is_dict]].
  - intros file_id fields tpl ai_model doc body T Hbody Hpost.
    unfold structured, extract_structured_metadata, extract_structured_try.
    rewrite Htok. cbn [bind]. rewrite Hbody. cbn [bind].
    rewrite Hpost. cbn [bind]. rewrite Hstatus, Hjson, T. reflexivity.
  - intros file_id prompt ai_model doc Hpost.
    unfold freeform, extract_freeform_metadata, extract_freeform_try.
    rewrite Htok. cbn [bind]. rewrite Hpost. cbn [bind].
    rewrite Hstatus, Hjson. reflexivity.
Qed.
(** The loop that builds the field definitions stops at the first
    element that is not a dictionary. *)
Lemma api_fields_of_first_non_dict before bad after :
  Forall (fun item => is_dict item = true) before ->
  is_dict bad = false ->
  api_fields_of (before ++ bad :: after) =
  Raise (OtherError "AttributeError"
           ("'" ++ type_name bad ++ "' object has no attribute 'get'")%string).
Proof.
  intros Hbefore Hbad.
  induction Hbefore as [|head before Hhead _ IH].
  - destruct bad; try discriminate Hbad; reflexivity.
  - destruct head; try discriminate Hhead.
    cbn [List.app api_fields_of api_field as_dict bind]. now rewrite IH.
Qed.

(** X19. When the access token is found and is a string, and no
    template is given, a [fields] list that holds an element that is not
    a dictionary makes [extract_structured_metadata] return
    {error: "'<type>' object has no attribute 'get'"} for the first such
    element, whatever comes after it and whatever the service would
    answer. *)
Theorem X19_fields_must_be_dictionaries :
  forall c token file_id before bad after metadata_template ai_model
         document_text,
    get_access_token c = Ok (OStr token) ->
    truthy metadata_template = false ->
    Forall (fun item => is_dict item = true) before ->
    is_dict bad = false ->
    structured c file_id (OList (before ++ bad :: after)) metadata_template
      ai_model document_text =
    ODict [(OStr "error",
            OStr ("'" ++ type_name bad
                  ++ "' object has no attribute 'get'")%string)].
Proof.
  intros c token file_id before bad after tpl ai_model doc Htok T Hbefore Hbad.
  unfold structured, extract_structured_metadata, extract_structured_try,
    structured_request_body.
  rewrite Htok, T. cbn [bind].
  assert (F : truthy (OList (before ++ bad :: after)) = true)
    by (destruct before; reflexivity).
  rewrite F. cbn [iterate bind].
  now rewrite (api_fields_of_first_non_dict before bad after Hbefore Hbad).
Qed.
End ExtractionCalls.

Lemma X15_template_always_gives_error_witness :
  let template :=
    MetadataExtraction.ODict
      [(MetadataExtraction.OStr "fields", MetadataExtraction.ODict [])] in
  MetadataExtraction.truthy template = true
  /\ MetadataExtraction.extract_structured_metadata SampleService.post_ok
       SampleService.str_other "system message" SampleService.client_with_token
       "file-1" MetadataExtraction.ONone template "model" "" =
     MetadataExtraction.ODict
       [(MetadataExtraction.OStr "error",
         MetadataExtraction.OStr
           "enhance_confidence_with_template() takes 2 positional arguments but 3 were given")].
Proof.
  intros template.
  split; [reflexivity|].
  exact (proj2 (X15_template_always_gives_error SampleService.post_ok
                  SampleService.str_other "system message"
                  SampleService.client_with_token "file-1"
                  MetadataExtraction.ONone template "model" "" eq_refl)
           (MetadataExtraction.OStr "test_access_token")
           (MetadataExtraction.mk_response 200 "OK" "" (Ok SampleService.answer))
           SampleService.answer eq_refl eq_refl eq_refl eq_refl).
Defined.

Lemma X16_access_token_lookup_witness :
  let stale :=
    MetadataExtraction.mk_client
      (Some (MetadataExtraction.mk_token_holder "NoneType" None))
      (Some (MetadataExtraction.mk_token_holder "Auth"
               (Some (MetadataExtraction.OStr "good-token")))) in
  let auth_only :=
    MetadataExtraction.mk_client None
      (Some (MetadataExtraction.mk_token_holder "Auth"
               (Some (MetadataExtraction.OStr "good-token")))) in
  let auth_empty :=
    MetadataExtraction.mk_client None
      (Some (MetadataExtraction.mk_token_holder "Auth"
               (Some (MetadataExtraction.OStr "")))) in
  MetadataExtraction.extract_freeform_metadata SampleService.post_ok
    SampleService.str_other (fun prompt => prompt) stale "file-1" "prompt"
    "model" "" =
  MetadataExtraction.ODict
    [(MetadataExtraction.OStr "error",
      MetadataExtraction.OStr
        "'NoneType' object has no attribute 'access_token'")]
  /\ MetadataExtraction.get_access_token auth_only
     = Ok (MetadataExtraction.OStr "good-token")
  /\ MetadataExtraction.extract_freeform_metadata SampleService.post_ok
       SampleService.str_other (fun prompt => prompt) auth_empty "file-1"
       "prompt" "model" "" =
     MetadataExtraction.ODict
       [(MetadataExtraction.OStr "error",
         MetadataExtraction.OStr
           "Could not retrieve access token from client")].
Proof.
  intros stale auth_only auth_empty.
  split; [|split].
  - exact (proj2 (proj1 (proj2 (proj2 (X16_access_token_lookup
             SampleService.post_ok SampleService.str_other "system message"
             (fun prompt => prompt) stale "file-1" MetadataExtraction.ONone
             MetadataExtraction.ONone "prompt" "model" "")))
             (MetadataExtraction.mk_token_holder "NoneType" None)
             eq_refl eq_refl)).
  - exact (proj1 (proj2 (proj2 (proj2 (X16_access_token_lookup
             SampleService.post_ok SampleService.str_other "system message"
             (fun prompt => prompt) auth_only "file-1"
             MetadataExtraction.ONone MetadataExtraction.ONone "prompt"
             "model" ""))))
             (MetadataExtraction.mk_token_holder "Auth"
                (Some (MetadataExtraction.OStr "good-token")))
             (MetadataExtraction.OStr "good-token")
             eq_refl eq_refl eq_refl eq_refl).
  - exact (proj2 (proj2 (proj1 (proj2 (proj2 (proj2 (proj2
             (X16_access_token_lookup
                SampleService.post_ok SampleService.str_other "system message"
                (fun prompt => prompt) auth_empty "file-1"
                MetadataExtraction.ONone MetadataExtraction.ONone "prompt"
                "model" "")))))
             (MetadataExtraction.mk_token_holder "Auth"
                (Some (MetadataExtraction.OStr "")))
             eq_refl eq_refl
             (or_intror (ex_intro _ (MetadataExtraction.OStr "")
                           (conj eq_refl eq_refl)))))).
Defined.

Lemma X17_status_not_200_witness :
  MetadataExtraction.extract_freeform_metadata SampleService.post_unauthorized
    SampleService.str_other (fun prompt => prompt)
    SampleService.client_with_token "file-1" "prompt" "model" "" =
  MetadataExtraction.ODict
    [(MetadataExtraction.OStr "error",
      MetadataExtraction.OStr "Error in Box AI API call: 401 Unauthorized");
     (MetadataExtraction.OStr "details",
      MetadataExtraction.OStr "token expired")].
Proof.
  assert (S : MetadataExtraction.status_code
                (MetadataExtraction.mk_response 401 "Unauthorized"
                   "token expired"
                   (Raise (ValueError
                             "Expecting value: line 1 column 1 (char 0)")))
              <> 200) by discriminate.
  exact (proj2 (X17_status_not_200 SampleService.post_unauthorized
                  SampleService.str_other "system message"
                  (fun prompt => prompt) SampleService.client_with_token
                  (MetadataExtraction.OStr "test_access_token") _ eq_refl S)
           "file-1" "prompt" "model" "" eq_refl).
Defined.

Lemma X18_without_template_processes_response_witness :
  MetadataExtraction.extract_structured_metadata SampleService.post_ok
    SampleService.str_other "system message" SampleService.client_with_token
    "file-1" MetadataExtraction.ONone MetadataExtraction.ONone "model" "" =
  MetadataExtraction.ODict
    [(MetadataExtraction.OStr "total",
      MetadataExtraction.ODict
        [(MetadataExtraction.OStr "value", MetadataExtraction.OInt 12);
         (MetadataExtraction.OStr "confidence", MetadataExtraction.OStr "High");
         (MetadataExtraction.OStr "reasoning",
          MetadataExtraction.OStr "No reasoning provided")])].
Proof.
  rewrite (proj1 (X18_without_template_processes_response SampleService.post_ok
                    SampleService.str_other "system message"
                    (fun prompt => prompt) SampleService.client_with_token
                    (MetadataExtraction.OStr "test_access_token")
                    (MetadataExtraction.mk_response 200 "OK" ""
                       (Ok SampleService.answer))
                    SampleService.answer eq_refl eq_refl eq_refl)
             "file-1" MetadataExtraction.ONone MetadataExtraction.ONone
             "model" "" _ eq_refl eq_refl eq_refl).
  reflexivity.
Defined.

Lemma X19_fields_must_be_dictionaries_witness :
  MetadataExtraction.extract_structured_metadata SampleService.post_ok
    SampleService.str_other "system message"
    SampleService.client_with_token "file-1"
    (MetadataExtraction.OList
       [MetadataExtraction.ODict
          [(MetadataExtraction.OStr "key", MetadataExtraction.OStr "a")];
        MetadataExtraction.OStr "total"; MetadataExtraction.OInt 3])
    MetadataExtraction.ONone "model" "" =
  MetadataExtraction.ODict
    [(MetadataExtraction.OStr "error",
      MetadataExtraction.OStr "'str' object has no attribute 'get'")].
Proof.
  assert (Hbefore :
    Forall (fun item => MetadataExtraction.is_dict item = true)
      [MetadataExtraction.ODict
         [(MetadataExtraction.OStr "key", MetadataExtraction.OStr "a")]])
    by (constructor; [reflexivity|constructor]).
  exact (X19_fields_must_be_dictionaries SampleService.post_ok
           SampleService.str_other "system message"
           SampleService.client_with_token "test_access_token" "file-1"
           [MetadataExtraction.ODict
              [(MetadataExtraction.OStr "key", MetadataExtraction.OStr "a")]]
           (MetadataExtraction.OStr "total") [MetadataExtraction.OInt 3]
           MetadataExtraction.ONone "model" "" eq_refl eq_refl
           Hbefore eq_refl).
Defined.
